(** * pymc3.glm.families: families of likelihoods and link functions

    A shallow embedding of [pymc3/glm/families.py].  The Python objects the
    module touches (dictionaries of priors, class and instance attributes)
    live in an explicit object store so that aliasing between a class-level
    default and an instance is visible; the calls into the host framework
    ([modelcontext], [register_rv], the distribution constructors and the
    tensor operations) go through the interface [Host]. *)

From Stdlib Require Import ZArith String List Reals Lra.
From stdpp Require Import base tactics option list strings.

Open Scope string_scope.
Open Scope list_scope.

(** ** Python values and objects *)

Abbreviation addr := nat.

(** The three tensor operations the module binds as link functions. *)
Inductive aet_op := Sigmoid | Inv | Exp.

Inductive value :=
| VNone
| VNum (n : Z)                      (* an instance of numbers.Number *)
| VGeneric (n : Z)                  (* a numpy scalar, np.generic *)
| VStr (s : string)
| VIdentity                         (* an instance of class Identity *)
| VOp (op : aet_op)                 (* a tensor operation *)
| VDistClass (c : string)           (* a distribution class, pm_dists.c *)
| VDist (c : string)                (* an unnamed distribution, pm_dists.c.dist(...) *)
| VVar (name : string)              (* a named tensor or model variable *)
| VModel (name : string)            (* a model context *)
| VApply (op : aet_op) (x : value)  (* a symbolic application of an operation *)
| VRef (a : addr).                  (* a reference to a mutable object *)

(** A Python [dict] with string keys keeps its insertion order. *)
Definition dict := list (string * value).

(** A class: Python's root class [object], or a class statement with a
    name, a base class and the attributes of its body. *)
Inductive klass :=
| KObject
| Klass (name : string) (base : klass) (cattrs : dict).

Inductive object :=
| ODict (d : dict)
| OArray (xs : list Z)              (* np.ndarray, one-dimensional *)
| OInst (cls : klass) (attrs : dict)
| OInstAt (cls : klass) (d : addr). (* an instance whose __dict__ is the
                                       dictionary at address d *)

Inductive exn :=
| AttributeError
| TypeError
| ValueError
| KeyError
| HostError (msg : string).

Inductive res (A : Type) :=
| Ok (a : A)
| Raise (e : exn).
Arguments Ok {A} a.
Arguments Raise {A} e.

(** ** Dictionaries *)

Fixpoint dict_get (d : dict) (k : string) : option value :=
  match d with
  | [] => None
  | (k', v) :: d' => if String.eqb k k' then Some v else dict_get d' k
  end.

(** [d[k] = v]: an existing key keeps its position, a new key goes last. *)
Fixpoint dict_set (d : dict) (k : string) (v : value) : dict :=
  match d with
  | [] => [(k, v)]
  | (k', v') :: d' =>
      if String.eqb k k' then (k', v) :: d' else (k', v') :: dict_set d' k v
  end.

(** [d.update(d2)] for a mapping [d2]. *)
Definition dict_update (d d2 : dict) : dict :=
  fold_left (fun acc kv => dict_set acc (fst kv) (snd kv)) d2 d.

Definition dict_keys (d : dict) : list string := fst <$> d.

Definition dict_mem (d : dict) (k : string) : bool :=
  match dict_get d k with Some _ => true | None => false end.

(** ** Classes and attribute lookup *)

(** Attribute lookup on a class follows the chain of base classes. *)
Fixpoint class_lookup (c : klass) (k : string) : option value :=
  match c with
  | KObject => None
  | Klass _ base cattrs =>
      match dict_get cattrs k with
      | Some v => Some v
      | None => class_lookup base k
      end
  end.

(** ** The host framework *)

(** What the module consumes from the host framework: the model-context
    lookup, the registration of a named random variable, the constructor of a
    distribution class and the tensor operations.  The lookup only reads the
    host's state; the other two may change it.  None of them is handed the
    object store.  [pairs_of] is what iterating over one of the host's own
    objects (a tensor, a model, a distribution or its class) gives to
    [dict.update]: the key/value pairs, or the exception it ends with. *)
Class Host := {
  hstate : Type;
  modelcontext : value -> hstate -> res value;
  register_rv : value -> value -> string -> hstate -> res value * hstate;
  dist_new : string -> list value -> dict -> hstate -> res value * hstate;
  aet_call : aet_op -> list value -> dict -> res value;
  pairs_of : value -> res dict
}.

Section Families.

Context {H : Host}.

(** ** State and the exception monad *)

Record state := mkState { heap : list object; host : hstate }.

(** A computation runs on a state and ends with a value or an exception;
    the state it has built up is kept when it raises. *)
Definition M (A : Type) : Type := state -> res A * state.

Definition ret {A} (a : A) : M A := fun st => (Ok a, st).
Definition raise {A} (e : exn) : M A := fun st => (Raise e, st).
Definition bind {A B} (m : M A) (f : A -> M B) : M B :=
  fun st => match m st with
            | (Ok a, st') => f a st'
            | (Raise e, st') => (Raise e, st')
            end.

#[local] Notation "x <- m ;; k" := (bind m (fun x => k))
  (at level 100, m at next level, right associativity).
#[local] Notation "m ;;; k" := (bind m (fun _ => k))
  (at level 100, right associativity).

Definition lift_res {A} (r : res A) : M A := fun st => (r, st).

Definition get_obj (a : addr) : M object :=
  fun st => match heap st !! a with
            | Some o => (Ok o, st)
            | None => (Raise TypeError, st)
            end.

Definition alloc (o : object) : M addr :=
  fun st => (Ok (length (heap st)), mkState (heap st ++ [o]) (host st)).

Definition put_obj (a : addr) (o : object) : M unit :=
  fun st => (Ok tt, mkState (<[a:=o]> (heap st)) (host st)).

Definition host_read {A} (f : hstate -> res A) : M A :=
  fun st => (f (host st), st).

Definition host_step {A} (f : hstate -> res A * hstate) : M A :=
  fun st => let '(r, hs) := f (host st) in (r, mkState (heap st) hs).

(** Monadic [for x in l: body x]. *)
Fixpoint for_each {A} (l : list A) (body : A -> M unit) : M unit :=
  match l with
  | [] => ret tt
  | x :: l' => body x ;;; for_each l' body
  end.

(** ** Python primitives used by the module *)

(** [isinstance(val, (numbers.Number, np.ndarray, np.generic))] *)
Definition is_numeric (h : list object) (val : value) : bool :=
  match val with
  | VNum _ | VGeneric _ => true
  | VRef a => match h !! a with Some (OArray _) => true | _ => false end
  | _ => false
  end.

Definition isinstance_numeric (val : value) : M bool :=
  fun st => (Ok (is_numeric (heap st) val), st).

(** [getattr(obj, k)]: the instance dictionary first, then the class. *)
Definition getattr (obj : value) (k : string) : M value :=
  match obj with
  | VRef a =>
      o <- get_obj a ;;
      match o with
      | OInst c attrs =>
          match dict_get attrs k with
          | Some v => ret v
          | None => match class_lookup c k with
                    | Some v => ret v
                    | None => raise AttributeError
                    end
          end
      | OInstAt c d =>
          o2 <- get_obj d ;;
          match o2 with
          | ODict attrs =>
              match dict_get attrs k with
              | Some v => ret v
              | None => match class_lookup c k with
                        | Some v => ret v
                        | None => raise AttributeError
                        end
              end
          | _ => raise AttributeError
          end
      | _ => raise AttributeError
      end
  | _ => raise AttributeError
  end.

(** The three attribute names every instance has from [object] with a
    setter of their own. *)
Definition reserved_attr (k : string) : bool :=
  String.eqb k "__weakref__" || String.eqb k "__class__" ||
  String.eqb k "__dict__".

(** Storing [k] in the dictionary of the instance [o] at address [a]. *)
Definition store_attr (a : addr) (o : object) (k : string) (v : value)
    : M unit :=
  match o with
  | OInst c attrs => put_obj a (OInst c (dict_set attrs k v))
  | OInstAt c d =>
      o2 <- get_obj d ;;
      match o2 with
      | ODict attrs => put_obj d (ODict (dict_set attrs k v))
      | _ => raise TypeError
      end
  | _ => raise AttributeError
  end.

(** The instance [o] as an instance of the class [c']. *)
Definition set_class (c' : klass) (o : object) : object :=
  match o with
  | OInst _ attrs => OInst c' attrs
  | OInstAt _ d => OInstAt c' d
  | _ => o
  end.

(** [setattr(obj, k, v)].  [__weakref__] cannot be written; [__class__]
    takes a class only, and the instance then belongs to it (of a
    distribution class the embedding keeps the name); [__dict__] takes a
    dictionary only, which from then on is the instance dictionary itself;
    any other name is stored in the instance dictionary. *)
Definition setattr (obj : value) (k : string) (v : value) : M unit :=
  match obj with
  | VRef a =>
      o <- get_obj a ;;
      match o with
      | OInst c _ | OInstAt c _ =>
          if String.eqb k "__weakref__" then raise AttributeError
          else if String.eqb k "__class__" then
            match v with
            | VDistClass c' => put_obj a (set_class (Klass c' KObject []) o)
            | _ => raise TypeError
            end
          else if String.eqb k "__dict__" then
            match v with
            | VRef b =>
                o2 <- get_obj b ;;
                match o2 with
                | ODict _ => put_obj a (OInstAt c b)
                | _ => raise TypeError
                end
            | _ => raise TypeError
            end
          else store_attr a o k v
      | _ => raise AttributeError
      end
  | _ => raise AttributeError
  end.

(** [copy.copy(v)]: a mutable object is duplicated one level deep, its
    components are shared with the original; anything else is returned
    as it is.  The copy of an instance has a dictionary of its own. *)
Definition copy (v : value) : M value :=
  match v with
  | VRef a =>
      o <- get_obj a ;;
      match o with
      | OInstAt c d =>
          o2 <- get_obj d ;;
          match o2 with
          | ODict attrs => a' <- alloc (OInst c attrs) ;; ret (VRef a')
          | _ => raise TypeError
          end
      | _ => a' <- alloc o ;; ret (VRef a')
      end
  | _ => ret v
  end.

(** [recv.items()] *)
Definition items (recv : value) : M dict :=
  match recv with
  | VRef a =>
      o <- get_obj a ;;
      match o with
      | ODict d => ret d
      | _ => raise AttributeError
      end
  | _ => raise AttributeError
  end.

(** [recv.update(val)]: only a dictionary has the method; its argument is
    a mapping or an iterable of pairs.  What an object of the host yields
    is the host's to say. *)
Definition update (recv : value) (val : value) : M unit :=
  match recv with
  | VRef a =>
      o <- get_obj a ;;
      match o with
      | ODict d =>
          match val with
          | VRef b =>
              o2 <- get_obj b ;;
              match o2 with
              | ODict d2 => put_obj a (ODict (dict_update d d2))
              | OArray [] => ret tt
              | _ => raise TypeError
              end
          | VStr "" => ret tt
          | VStr _ => raise ValueError
          | VOp _ | VDistClass _ | VDist _ | VVar _ | VModel _ | VApply _ _ =>
              match pairs_of val with
              | Ok d2 => put_obj a (ODict (dict_update d d2))
              | Raise e => raise e
              end
          | _ => raise TypeError
          end
      | _ => raise AttributeError
      end
  | _ => raise AttributeError
  end.

(** [target[k] = v] on a dictionary. *)
Definition setitem (target : value) (k : string) (v : value) : M unit :=
  match target with
  | VRef a =>
      o <- get_obj a ;;
      match o with
      | ODict d => put_obj a (ODict (dict_set d k v))
      | _ => raise TypeError
      end
  | _ => raise TypeError
  end.

(** Dictionaries and arrays cannot be used as dictionary keys. *)
Definition is_hashable (h : list object) (v : value) : bool :=
  match v with
  | VRef a =>
      match h !! a with
      | Some (OInst _ _) | Some (OInstAt _ _) => true
      | _ => false
      end
  | _ => true
  end.

(** Calling [f] with positional arguments [args] and keyword arguments
    [kwargs].  An [Identity] instance takes its one parameter
    [x] by position or by keyword; tensor operations and distribution
    classes belong to the host; nothing else here is callable. *)
Definition call_kw (f : value) (args : list value) (kwargs : dict) : M value :=
  match f with
  | VIdentity =>
      match args, kwargs with
      | [x], [] => ret x
      | [], [(k, x)] => if String.eqb k "x" then ret x else raise TypeError
      | _, _ => raise TypeError
      end
  | VOp op => lift_res (aet_call op args kwargs)
  | VDistClass c => host_step (dist_new c args kwargs)
  | _ => raise TypeError
  end.

(** ** Link functions *)

Definition identity : value := VIdentity.
Definition logit : value := VOp Sigmoid.
Definition inverse : value := VOp Inv.
Definition exp : value := VOp Exp.

(** ** class Family *)

(** [if name: name = f"{name}_"] *)
Definition with_underscore (name : string) : string :=
  if String.eqb name "" then name else name +:+ "_".

(** The body of the loop of [__init__], for one keyword argument:
    [self.priors = copy(self.priors)] and [self.priors.update(val)] for the
    key ["priors"], [setattr(self, key, val)] for any other. *)
Definition override (self : value) (kv : string * value) : M unit :=
  let '(key, val) := kv in
  if String.eqb key "priors" then
    p <- getattr self "priors" ;;
    c <- copy p ;;
    setattr self "priors" c ;;;
    p' <- getattr self "priors" ;;
    update p' val
  else
    setattr self key val.

(** [Family.__init__], with its keyword arguments in call order. *)
Definition __init__ (self : value) (kwargs : dict) : M unit :=
  for_each kwargs (override self).

(** Calling the class [cls] with keyword arguments: a new instance,
    initialised by [__init__].  A keyword named [self] collides with the
    first parameter of [__init__], whose body is then not entered. *)
Definition construct (cls : klass) (kwargs : dict) : M value :=
  a <- alloc (OInst cls []) ;;
  if dict_mem kwargs "self" then raise TypeError
  else (__init__ (VRef a) kwargs ;;; ret (VRef a)).

(** The body of the loop of [_get_priors], for one entry of [self.priors]. *)
Definition resolve_entry (model : value) (name : string) (priors : value)
    (kv : string * value) : M unit :=
  let '(key, val) := kv in
  b <- isinstance_numeric val ;;
  if b then setitem priors key val
  else
    rv <- host_step (register_rv model val (name +:+ key)) ;;
    setitem priors key rv.

(** [Family._get_priors(self, model=None, name="")] *)
Definition _get_priors (self : value) (model : value) (name : string) : M value :=
  let name := with_underscore name in
  model <- host_read (modelcontext model) ;;
  a <- alloc (ODict []) ;;
  let priors := VRef a in
  sp <- getattr self "priors" ;;
  its <- items sp ;;
  for_each its (resolve_entry model name priors) ;;;
  ret priors.

(** The call of [self.likelihood] with the positional argument
    [f"{name}y"], the keyword [observed=y_data] and the mapping [priors]
    unpacked as further keywords: [observed] may not be given twice. *)
Definition call_likelihood (self : value) (name : string) (y_data : value)
    (priors : value) : M value :=
  likelihood <- getattr self "likelihood" ;;
  kw <- items priors ;;
  if dict_mem kw "observed" then raise TypeError
  else call_kw likelihood [VStr (name +:+ "y")] (("observed", y_data) :: kw).

(** A [parent] that is not a string cannot be a key of [dict]: if it is
    hashable Python stores it and refuses the mapping as keyword arguments
    once [self.likelihood] has been looked up, otherwise the assignment
    [priors[self.parent] = ...] itself fails. *)
Definition refuse_parent (self parent : value) : M value :=
  fun st =>
    if is_hashable (heap st) parent
    then (_ <- getattr self "likelihood" ;; raise TypeError) st
    else raise TypeError st.

(** [Family.create_likelihood(self, name, y_est, y_data, model=None)] *)
Definition create_likelihood (self : value) (name : string) (y_est y_data : value)
    (model : value) : M value :=
  priors <- _get_priors self model name ;;
  link <- getattr self "link" ;;
  lv <- call_kw link [y_est] [] ;;
  parent <- getattr self "parent" ;;
  match parent with
  | VStr p =>
      setitem priors p lv ;;;
      let name := with_underscore name in
      call_likelihood self name y_data priors
  | _ => refuse_parent self parent
  end.

(** ** The concrete families *)

(** The two dictionaries created when the module is imported:
    [Family.priors = {}] and [Binomial.priors = {"n": 1}]. *)
Definition family_priors : addr := 0.
Definition binomial_priors : addr := 1.

Definition module_heap : list object :=
  [ODict []; ODict [("n", VNum 1)]].

Definition Family : klass :=
  Klass "Family" KObject
    [("priors", VRef family_priors); ("link", VNone)].

Definition StudentT : klass :=
  Klass "StudentT" Family
    [("link", identity); ("likelihood", VDistClass "StudentT");
     ("parent", VStr "mu"); ("priors", VNone)].

Definition Normal : klass :=
  Klass "Normal" Family
    [("link", identity); ("likelihood", VDistClass "Normal");
     ("parent", VStr "mu"); ("priors", VNone)].

Definition Binomial : klass :=
  Klass "Binomial" Family
    [("link", logit); ("likelihood", VDistClass "Binomial");
     ("parent", VStr "p"); ("priors", VRef binomial_priors)].

Definition Poisson : klass :=
  Klass "Poisson" Family
    [("link", exp); ("likelihood", VDistClass "Poisson");
     ("parent", VStr "mu"); ("priors", VNone)].

Definition NegativeBinomial : klass :=
  Klass "NegativeBinomial" Family
    [("link", exp); ("likelihood", VDistClass "NegativeBinomial");
     ("parent", VStr "mu"); ("priors", VNone)].

(** ** Specification-level notions *)

(** What [_get_priors] makes of the entries of [self.priors], in order,
    with the host state threaded through the registrations. *)
Inductive resolved (model : value) (prefix : string) (h : list object) :
    dict -> hstate -> dict -> hstate -> Prop :=
| resolved_nil hs :
    resolved model prefix h [] hs [] hs
| resolved_const k v d hs d' hs' :
    is_numeric h v = true ->
    resolved model prefix h d hs d' hs' ->
    resolved model prefix h ((k, v) :: d) hs ((k, v) :: d') hs'
| resolved_rv k v rv d hs hs1 d' hs' :
    is_numeric h v = false ->
    register_rv model v (prefix +:+ k) hs = (Ok rv, hs1) ->
    resolved model prefix h d hs1 d' hs' ->
    resolved model prefix h ((k, v) :: d) hs ((k, rv) :: d') hs'.

(** Two mappings share a mutable object when both hold a reference to the
    same live object of the store. *)
Definition shares_object (h : list object) (d1 d2 : dict) : Prop :=
  exists k1 k2 a,
    dict_get d1 k1 = Some (VRef a) /\ dict_get d2 k2 = Some (VRef a) /\
    is_Some (h !! a).

(** An instance built by [cls(priors=...)] holds a deep copy of the class
    default when its mapping shares no mutable object with the default. *)
Definition holds_deep_copy (cls : klass) (kwargs : dict) (st : state) : Prop :=
  forall inst st' ad d0 ai di,
    construct cls kwargs st = (Ok inst, st') ->
    class_lookup cls "priors" = Some (VRef ad) ->
    heap st !! ad = Some (ODict d0) ->
    getattr inst "priors" st' = (Ok (VRef ai), st') ->
    heap st' !! ai = Some (ODict di) ->
    ~ shares_object (heap st') d0 di.

(** The state in which the loop of [_get_priors] starts: [priors = {}]
    has been allocated. *)
Definition with_new_dict (st : state) : state :=
  mkState (heap st ++ [ODict []]) (host st).

(** The existing objects of [h] are all still there, unchanged, in [h']. *)
Definition preserves (h h' : list object) : Prop :=
  forall (a : addr) o, h !! a = Some o -> h' !! a = Some o.

(** Keyword arguments none of which is [self] or one of the three
    attribute names with a setter of their own. *)
Definition plain_keywords (kwargs : dict) : bool :=
  forallb (fun k => negb (String.eqb k "self" || reserved_attr k))
    (dict_keys kwargs).

(** The methods of [Family], which an instance attribute of the same name
    hides when they are called through the instance. *)
Definition method_names : list string :=
  ["_get_priors"; "create_likelihood"; "__repr__"].

Definition keeps_methods (kwargs : dict) : bool :=
  forallb (fun k => negb (existsb (String.eqb k) method_names))
    (dict_keys kwargs).


End Families.

Declare Scope pymonad_scope.
Notation "x <- m ;; k" := (bind m (fun x => k))
  (at level 100, m at next level, right associativity) : pymonad_scope.
Notation "m ;;; k" := (bind m (fun _ => k))
  (at level 100, right associativity) : pymonad_scope.

(** ** Link functions on real numbers *)

(** Modelled from the spec: the tensor library's elementwise operations,
    which are not part of the module: the logistic sigmoid, the reciprocal
    and the exponential, on real numbers. *)
Definition aet_den (op : aet_op) (x : R) : R :=
  match op with
  | Sigmoid => (1 / (1 + Rtrigo_def.exp (- x)))%R
  | Inv => (/ x)%R
  | Exp => Rtrigo_def.exp x
  end.

(** The real function a link denotes; [Identity.__call__] returns its
    argument. *)
Definition link_den (l : value) : option (R -> R) :=
  match l with
  | VIdentity => Some (fun x => x)
  | VOp op => Some (aet_den op)
  | _ => None
  end.

(** ** A reference host *)

(** Modelled from the spec: the host framework's model context, which is
    not part of the module.  A stack of active models and, per model, the
    variables registered so far.  The context lookup returns the model it is
    given, else the active one, and fails when there is none; a
    distribution class called with a name registers the observed variable
    in the active model; a tensor operation applied to one argument builds
    the symbolic application. *)
Record ref_hstate := mkRef {
  ctx_stack : list string;
  registered : list (string * string * value * dict)
}.

Definition ref_modelcontext (model : value) (hs : ref_hstate) : res value :=
  match model with
  | VNone => match ctx_stack hs with
             | m :: _ => Ok (VModel m)
             | [] => Raise TypeError
             end
  | _ => Ok model
  end.

Definition ref_register_rv (model val : value) (name : string) (hs : ref_hstate)
    : res value * ref_hstate :=
  match model with
  | VModel m =>
      (Ok (VVar name),
       mkRef (ctx_stack hs) (registered hs ++ [(m, name, val, [])]))
  | _ => (Raise AttributeError, hs)
  end.

Definition ref_dist_new (c : string) (args : list value) (kwargs : dict)
    (hs : ref_hstate) : res value * ref_hstate :=
  match args, ctx_stack hs with
  | [VStr name], m :: _ =>
      (Ok (VVar name),
       mkRef (ctx_stack hs) (registered hs ++ [(m, name, VDist c, kwargs)]))
  | _, _ => (Raise TypeError, hs)
  end.

Definition ref_aet_call (op : aet_op) (args : list value) (kwargs : dict)
    : res value :=
  match args, kwargs with
  | [x], [] => Ok (VApply op x)
  | _, _ => Raise TypeError
  end.

(** Its tensors are scalars, which cannot be iterated over; iterating over
    a model asks it for the item [0], which it does not have. *)
Definition ref_pairs_of (v : value) : res dict :=
  match v with
  | VModel _ => Raise KeyError
  | _ => Raise TypeError
  end.

Definition ref_host : Host :=
  {| hstate := ref_hstate;
     modelcontext := ref_modelcontext;
     register_rv := ref_register_rv;
     dist_new := ref_dist_new;
     aet_call := ref_aet_call;
     pairs_of := ref_pairs_of |}.

(** ** Scenarios *)

(** A store as a user's script leaves it after importing the module and
    building a few objects: the dictionary [{"n": 5}] at address 2, an array
    at 3, [{"w": <the array>}] at 4, [{"extra": 5}] at 5 and
    [{"sd": HalfCauchy.dist(...), "p": 7}] at 6. *)
Definition demo_heap : list object :=
  module_heap ++
  [ODict [("n", VNum 5)];
   OArray [1%Z; 2%Z];
   ODict [("w", VRef 3)];
   ODict [("extra", VNum 5)];
   ODict [("sd", VDist "HalfCauchy"); ("p", VNum 7)]].

(** A user's family whose default priors hold the array. *)
Definition Weighted : klass :=
  Klass "Weighted" Family
    [("link", identity); ("likelihood", VDistClass "Normal");
     ("parent", VStr "mu"); ("priors", VRef 4)].

(** Inside [with Model() as model:] and outside of any model. *)
Definition in_model : @state ref_host :=
  mkState (H := ref_host) demo_heap (mkRef ["model"] []).
Definition no_model : @state ref_host :=
  mkState (H := ref_host) demo_heap (mkRef [] []).

(** [Binomial(priors={"sd": ..., "p": 7})]: the instance is at address 7,
    its priors at 8; [_get_priors] then puts its result at 9. *)
Definition custom_binomial : @state ref_host :=
  snd (construct (H := ref_host) Binomial [("priors", VRef 6)] in_model).
Definition custom_resolved : @state ref_host :=
  snd (_get_priors (H := ref_host) (VRef 7) VNone "g" custom_binomial).

(** [Binomial()] outside of any model: the instance is at address 7. *)
Definition plain_binomial : @state ref_host :=
  snd (construct (H := ref_host) Binomial [] no_model).

(** ** [Family.__repr__] *)

(** What the Python runtime and the host libraries decide when an object is
    rendered as text: [str(v)] for a value that is not a string (it may
    look into the store, as for a dictionary), [str(cls)] for a class, and
    the attributes of the host's own objects. *)
Class Runtime := {
  format_object : list object -> value -> string;
  format_class : klass -> string;
  host_getattr : value -> string -> res value
}.

Section Describe.

Context {H : Host} {RT : Runtime}.

#[local] Open Scope pymonad_scope.

Definition newline : string := String (Ascii.ascii_of_nat 10) "".

(** [self.__class__]; for anything but an instance the next step of
    [__repr__], [self.likelihood], raises the same [AttributeError]. *)
Definition class_of (self : value) : M klass :=
  match self with
  | VRef a =>
      o <- get_obj a ;;
      match o with
      | OInst c _ | OInstAt c _ => ret c
      | _ => raise AttributeError
      end
  | _ => raise AttributeError
  end.

(** [obj.__name__]: a class has a name, an instance has one only if it was
    given one, numbers, strings, [None] and [Identity] instances have
    none. *)
Definition dunder_name (obj : value) : M value :=
  match obj with
  | VDistClass c => ret (VStr c)
  | VRef _ => getattr obj "__name__"
  | VOp _ | VDist _ | VVar _ | VModel _ | VApply _ _ =>
      lift_res (host_getattr obj "__name__")
  | _ => raise AttributeError
  end.

(** A replacement field [{x}] of [str.format]: a string goes in as it is,
    anything else as its [str]. *)
Definition format_value (v : value) : M string :=
  fun st =>
    (Ok (match v with VStr s => s | _ => format_object (heap st) v end), st).

(** [Family.__repr__(self)]: the keyword arguments of [format] are
    evaluated in the order they are written, then the template is filled. *)
Definition __repr__ (self : value) : M string :=
  klass <- class_of self ;;
  lik <- getattr self "likelihood" ;;
  likelihood <- dunder_name lik ;;
  parent <- getattr self "parent" ;;
  priors <- getattr self "priors" ;;
  link <- getattr self "link" ;;
  likelihood_s <- format_value likelihood ;;
  parent_s <- format_value parent ;;
  priors_s <- format_value priors ;;
  link_s <- format_value link ;;
  ret ("Family " +:+ format_class klass +:+ ":" +:+ newline +:+
       "    Likelihood  : " +:+ likelihood_s +:+ "(" +:+ parent_s +:+ ")" +:+
       newline +:+
       "    Priors      : " +:+ priors_s +:+ newline +:+
       "    Link function: " +:+ link_s +:+ ".").

End Describe.

(** ** Frames *)

(** From [st] to [st'] the host state is the same, and the store is [h0]
    with objects added or changed behind it. *)
Definition behind {H : Host} (h0 : list object) (st st' : state) : Prop :=
  host st' = host st /\ exists l, heap st' = h0 ++ l.

(** ** Further scenarios *)

(** A runtime that renders [None] as Python does and any other object by
    a placeholder. *)
Definition plain_runtime : Runtime :=
  {| format_object := fun _ v =>
       match v with VNone => "None" | _ => "<object>" end;
     format_class := fun c =>
       match c with
       | Klass n _ _ => "<class '" +:+ n +:+ "'>"
       | KObject => "<class 'object'>"
       end;
     host_getattr := fun _ _ => Raise AttributeError |}.

(** [Family()], [Binomial(parent="observed")] and [Binomial(parent=None)]
    in a model: the instance is at address 7. *)
Definition plain_family : @state ref_host :=
  snd (construct (H := ref_host) Family [] in_model).
Definition observed_binomial : @state ref_host :=
  snd (construct (H := ref_host) Binomial [("parent", VStr "observed")] in_model).
Definition headless_binomial : @state ref_host :=
  snd (construct (H := ref_host) Binomial [("parent", VNone)] in_model).


(** * Properties *)

(** ** Dictionaries *)

Lemma dict_get_set_eq (d : dict) k v : dict_get (dict_set d k v) k = Some v.
Proof.
  induction d as [|[k' v'] d IH]; simpl.
  - now rewrite String.eqb_refl.
  - destruct (String.eqb k k') eqn:E; simpl; rewrite E; auto.
Qed.

Lemma dict_get_set_ne (d : dict) k k' v :
  k <> k' -> dict_get (dict_set d k v) k' = dict_get d k'.
Proof.
  intros Hne. induction d as [|[k0 v0] d IH]; simpl.
  - destruct (String.eqb k' k) eqn:E; auto.
    apply String.eqb_eq in E. congruence.
  - destruct (String.eqb k k0) eqn:E; simpl.
    + apply String.eqb_eq in E. subst k0.
      destruct (String.eqb k' k) eqn:E'; auto.
      apply String.eqb_eq in E'. congruence.
    + now rewrite IH.
Qed.

Lemma dict_keys_cons k v (d : dict) : dict_keys ((k, v) :: d) = k :: dict_keys d.
Proof. reflexivity. Qed.

Lemma dict_keys_app (d d2 : dict) : dict_keys (d ++ d2) = dict_keys d ++ dict_keys d2.
Proof. unfold dict_keys. apply fmap_app. Qed.

Lemma dict_mem_set_other (d : dict) k k' v :
  k <> k' -> dict_mem (dict_set d k v) k' = dict_mem d k'.
Proof. intros Hne. unfold dict_mem. now rewrite dict_get_set_ne. Qed.

Lemma dict_get_None (d : dict) k :
  dict_get d k = None <-> k ∉ dict_keys d.
Proof.
  induction d as [|[k' v'] d IH].
  - split; [intros _; apply not_elem_of_nil | auto].
  - rewrite dict_keys_cons, not_elem_of_cons. simpl.
    destruct (String.eqb k k') eqn:E.
    + apply String.eqb_eq in E. split; [discriminate | tauto].
    + apply String.eqb_neq in E. tauto.
Qed.

Lemma dict_get_elem_of (d : dict) k v :
  NoDup (dict_keys d) -> (k, v) ∈ d -> dict_get d k = Some v.
Proof.
  induction d as [|[k' v'] d IH].
  - intros _ Hin. now apply elem_of_nil in Hin.
  - rewrite dict_keys_cons, NoDup_cons, elem_of_cons.
    simpl. intros [Hk Hnd] [Heq | Hin].
    + inversion Heq; subst. now rewrite String.eqb_refl.
    + destruct (String.eqb k k') eqn:E; auto.
      apply String.eqb_eq in E. subst k'. exfalso. apply Hk.
      now apply (list_elem_of_fmap_2 fst) in Hin.
Qed.

Lemma dict_get_Some_elem_of (d : dict) k v :
  dict_get d k = Some v -> (k, v) ∈ d.
Proof.
  induction d as [|[k' v'] d IH]; simpl; [discriminate|].
  rewrite elem_of_cons.
  destruct (String.eqb k k') eqn:E; auto.
  apply String.eqb_eq in E. intros [= ->]. left. now subst.
Qed.

Lemma dict_set_new (d : dict) k v :
  k ∉ dict_keys d -> dict_set d k v = d ++ [(k, v)].
Proof.
  induction d as [|[k' v'] d IH]; [reflexivity|].
  rewrite dict_keys_cons, not_elem_of_cons. simpl.
  intros [Hne Hk]. apply String.eqb_neq in Hne. rewrite Hne.
  f_equal. now apply IH.
Qed.

Lemma dict_keys_set_old (d : dict) k v :
  k ∈ dict_keys d -> dict_keys (dict_set d k v) = dict_keys d.
Proof.
  induction d as [|[k' v'] d IH].
  - intros Hin. now apply elem_of_nil in Hin.
  - rewrite dict_keys_cons, elem_of_cons. simpl.
    intros Hk. destruct (String.eqb k k') eqn:E; auto.
    rewrite !dict_keys_cons. f_equal. apply IH. destruct Hk as [Hk|]; auto.
    apply String.eqb_neq in E. congruence.
Qed.

Lemma dict_set_NoDup (d : dict) k v :
  NoDup (dict_keys d) -> NoDup (dict_keys (dict_set d k v)).
Proof.
  intros Hnd. destruct (dict_get d k) eqn:E.
  - rewrite dict_keys_set_old; auto.
    apply dict_get_Some_elem_of in E.
    now apply (list_elem_of_fmap_2 fst) in E.
  - apply dict_get_None in E. rewrite dict_set_new by auto.
    rewrite dict_keys_app. apply NoDup_app.
    split; [auto|]. split.
    + intros x Hx Hx'. apply list_elem_of_singleton in Hx'. simpl in Hx'. now subst.
    + apply NoDup_singleton.
Qed.

Lemma dict_update_cons (d : dict) k v d2 :
  dict_update d ((k, v) :: d2) = dict_update (dict_set d k v) d2.
Proof. reflexivity. Qed.

Lemma dict_update_NoDup (d d2 : dict) :
  NoDup (dict_keys d) -> NoDup (dict_keys (dict_update d d2)).
Proof.
  revert d. induction d2 as [|[k v] d2 IH]; intros d Hnd; [exact Hnd|].
  rewrite dict_update_cons. apply IH. now apply dict_set_NoDup.
Qed.

(** After [d.update(d2)] an entry of [d2] wins over the one of [d]. *)
Lemma dict_get_update (d d2 : dict) k :
  NoDup (dict_keys d2) ->
  dict_get (dict_update d d2) k =
  match dict_get d2 k with Some v => Some v | None => dict_get d k end.
Proof.
  revert d. induction d2 as [|[k' v'] d2 IH]; intros d Hnd; [reflexivity|].
  rewrite dict_keys_cons, NoDup_cons in Hnd.
  destruct Hnd as [Hk Hnd].
  rewrite dict_update_cons, IH by exact Hnd. simpl.
  destruct (String.eqb k k') eqn:E.
  - apply String.eqb_eq in E. subst k'.
    apply dict_get_None in Hk. rewrite Hk. apply dict_get_set_eq.
  - apply String.eqb_neq in E.
    destruct (dict_get d2 k); auto. apply dict_get_set_ne. congruence.
Qed.

(** Filling an empty dictionary with entries of distinct keys keeps them
    as they come. *)
Lemma dict_update_fresh (d d2 : dict) :
  NoDup (dict_keys (d ++ d2)) -> dict_update d d2 = d ++ d2.
Proof.
  revert d. induction d2 as [|[k v] d2 IH]; intros d Hnd.
  - now rewrite app_nil_r.
  - rewrite dict_update_cons.
    assert (Hk : k ∉ dict_keys d).
    { rewrite dict_keys_app, NoDup_app in Hnd.
      destruct Hnd as (_ & Hd & _). intros Hin. apply (Hd k Hin).
      rewrite dict_keys_cons. apply elem_of_cons. now left. }
    rewrite dict_set_new by exact Hk.
    rewrite IH; rewrite <- app_assoc; simpl; auto.
Qed.

Open Scope pymonad_scope.

Section Properties.

Context {H : Host}.

Ltac unfold_monad :=
  unfold bind, ret, raise, lift_res, get_obj, alloc, put_obj, host_read,
    host_step, isinstance_numeric in *.

(** ** The object store *)


Lemma preserves_refl (h : list object) : preserves h h.
Proof. intros a o Ha. exact Ha. Qed.

Lemma preserves_trans (h1 h2 h3 : list object) :
  preserves h1 h2 -> preserves h2 h3 -> preserves h1 h3.
Proof. intros H12 H23 a o Ha. apply H23, H12, Ha. Qed.

Lemma preserves_app (h h2 : list object) : preserves h (h ++ h2).
Proof. intros a o Ha. now apply lookup_app_l_Some. Qed.

Lemma lookup_snoc_new (h : list object) o : (h ++ [o]) !! length h = Some o.
Proof. apply list_lookup_middle. reflexivity. Qed.

Lemma insert_snoc (h : list object) o o' :
  <[length h:=o']> (h ++ [o]) = h ++ [o'].
Proof.
  replace (length h) with (length h + 0) by lia.
  now rewrite insert_app_r.
Qed.

(** A freshly allocated dictionary changes no [isinstance] test. *)
Lemma is_numeric_snoc_dict (h : list object) d v :
  is_numeric (h ++ [ODict d]) v = is_numeric h v.
Proof.
  destruct v as [| | | | | | | | | | |a]; simpl; auto.
  destruct (decide (a < length h)) as [Hlt|Hge].
  - now rewrite lookup_app_l.
  - rewrite (lookup_ge_None_2 h a) by lia.
    destruct (decide (a = length h)) as [->|Hne].
    + now rewrite lookup_snoc_new.
    + rewrite lookup_ge_None_2; auto. rewrite length_app. simpl. lia.
Qed.

(** ** Attribute access *)

Lemma getattr_pure obj k st r st' : getattr obj k st = (r, st') -> st' = st.
Proof.
  unfold getattr. destruct obj; unfold_monad; try (intros [= _ <-]; reflexivity).
  destruct (heap st !! a) as [[d|xs|c attrs|c d]|];
    try (intros [= _ <-]; reflexivity).
  - destruct (dict_get attrs k); [intros [= _ <-]; reflexivity|].
    destruct (class_lookup c k); intros [= _ <-]; reflexivity.
  - destruct (heap st !! d) as [[attrs|xs|c' attrs|c' d']|];
      try (intros [= _ <-]; reflexivity).
    destruct (dict_get attrs k); [intros [= _ <-]; reflexivity|].
    destruct (class_lookup c k); intros [= _ <-]; reflexivity.
Qed.

Lemma getattr_inst a c attrs k st :
  heap st !! a = Some (OInst c attrs) ->
  getattr (VRef a) k st =
  (match dict_get attrs k with
   | Some v => Ok v
   | None => match class_lookup c k with
             | Some v => Ok v
             | None => Raise AttributeError
             end
   end, st).
Proof.
  intros Ha. unfold getattr. unfold_monad. rewrite Ha.
  destruct (dict_get attrs k); auto. destruct (class_lookup c k); auto.
Qed.

Lemma getattr_inst_at a c d attrs k st :
  heap st !! a = Some (OInstAt c d) ->
  heap st !! d = Some (ODict attrs) ->
  getattr (VRef a) k st =
  (match dict_get attrs k with
   | Some v => Ok v
   | None => match class_lookup c k with
             | Some v => Ok v
             | None => Raise AttributeError
             end
   end, st).
Proof.
  intros Ha Hd. unfold getattr. unfold_monad. rewrite Ha, Hd.
  destruct (dict_get attrs k); auto. destruct (class_lookup c k); auto.
Qed.

(** A successful lookup goes through an instance of the store, and through
    its dictionary when that is an object of its own. *)
Lemma getattr_Ok_inv obj k v st st' :
  getattr obj k st = (Ok v, st') ->
  exists a c,
    obj = VRef a /\
    ((exists attrs, heap st !! a = Some (OInst c attrs)) \/
     (exists d attrs, heap st !! a = Some (OInstAt c d) /\
                      heap st !! d = Some (ODict attrs))).
Proof.
  unfold getattr. destruct obj; unfold_monad; try discriminate.
  destruct (heap st !! a) as [[d|xs|c attrs|c d]|] eqn:Ha; try discriminate.
  - intros _. exists a, c. split; [reflexivity|]. left. now exists attrs.
  - destruct (heap st !! d) as [[attrs|xs|c' attrs|c' d']|] eqn:Hd;
      try discriminate.
    intros _. exists a, c. split; [reflexivity|]. right. now exists d, attrs.
Qed.

(** Attribute lookup sees only the instance it is applied to. *)
Lemma getattr_preserved obj k v st st' st2 :
  getattr obj k st = (Ok v, st') ->
  preserves (heap st) (heap st2) ->
  getattr obj k st2 = (Ok v, st2).
Proof.
  intros Hg Hp.
  destruct (getattr_Ok_inv _ _ _ _ _ Hg)
    as (a & c & -> & [(attrs & Ha) | (d & attrs & Ha & Hd)]).
  - rewrite (getattr_inst a c attrs) in Hg by exact Ha.
    rewrite (getattr_inst a c attrs) by (apply Hp, Ha).
    now inversion Hg.
  - rewrite (getattr_inst_at a c d attrs) in Hg by assumption.
    rewrite (getattr_inst_at a c d attrs) by (apply Hp; assumption).
    now inversion Hg.
Qed.

Lemma items_dict a d st :
  heap st !! a = Some (ODict d) -> items (VRef a) st = (Ok d, st).
Proof. intros Ha. unfold items. unfold_monad. now rewrite Ha. Qed.

Lemma setitem_dict a d k v st :
  heap st !! a = Some (ODict d) ->
  setitem (VRef a) k v st =
  (Ok tt, mkState (<[a:=ODict (dict_set d k v)]> (heap st)) (host st)).
Proof. intros Ha. unfold setitem. unfold_monad. now rewrite Ha. Qed.

(** ** The loop of [_get_priors] *)

Lemma for_each_cons {A} (x : A) l (body : A -> M unit) :
  for_each (x :: l) body = (body x ;;; for_each l body).
Proof. reflexivity. Qed.

Lemma resolve_entry_run model pre (h0 : list object) acc hs k v :
  resolve_entry model pre (VRef (length h0)) (k, v)
    (mkState (h0 ++ [ODict acc]) hs) =
  if is_numeric h0 v
  then (Ok tt, mkState (h0 ++ [ODict (dict_set acc k v)]) hs)
  else match register_rv model v (pre +:+ k) hs with
       | (Ok rv, hs1) => (Ok tt, mkState (h0 ++ [ODict (dict_set acc k rv)]) hs1)
       | (Raise e, hs1) => (Raise e, mkState (h0 ++ [ODict acc]) hs1)
       end.
Proof.
  unfold resolve_entry, bind, isinstance_numeric, host_step. cbn [heap host].
  rewrite is_numeric_snoc_dict. destruct (is_numeric h0 v).
  - rewrite (setitem_dict _ acc) by apply lookup_snoc_new. cbn [heap host].
    now rewrite insert_snoc.
  - cbn [heap host].
    destruct (register_rv model v (pre +:+ k) hs) as [[rv|e] hs1]; auto.
    rewrite (setitem_dict _ acc) by apply lookup_snoc_new. cbn [heap host].
    now rewrite insert_snoc.
Qed.

(** Whatever the loop does, the store only changes at the new dictionary;
    when it ends normally, the entries were resolved in order; when it
    raises, a registration raised. *)
Lemma resolve_loop_inv model pre (h0 : list object) its :
  forall acc hs r st',
    for_each its (resolve_entry model pre (VRef (length h0)))
      (mkState (h0 ++ [ODict acc]) hs) = (r, st') ->
    exists acc',
      heap st' = h0 ++ [ODict acc'] /\
      match r with
      | Ok _ =>
          exists d', resolved model pre h0 its hs d' (host st') /\
                     acc' = dict_update acc d'
      | Raise e =>
          exists k v hs1,
            (k, v) ∈ its /\ is_numeric h0 v = false /\
            register_rv model v (pre +:+ k) hs1 = (Raise e, host st')
      end.
Proof.
  induction its as [|[k v] its IH]; intros acc hs r st' Hrun.
  - simpl in Hrun. unfold ret in Hrun. inversion Hrun; subst. simpl.
    exists acc. split; auto. exists []. split; [constructor | reflexivity].
  - rewrite for_each_cons in Hrun. unfold bind in Hrun at 1.
    rewrite resolve_entry_run in Hrun.
    destruct (is_numeric h0 v) eqn:Hnum.
    + apply IH in Hrun. destruct Hrun as (acc' & Hheap & Hr).
      exists acc'. split; auto. destruct r as [u|e].
      * destruct Hr as (d' & Hres & ->).
        exists ((k, v) :: d'). split; [now constructor | reflexivity].
      * destruct Hr as (k1 & v1 & hs1 & Hin & Hn & Hreg).
        exists k1, v1, hs1. split; auto. apply elem_of_cons. now right.
    + destruct (register_rv model v (pre +:+ k) hs) as [[rv|e] hs1] eqn:Hreg.
      * apply IH in Hrun. destruct Hrun as (acc' & Hheap & Hr).
        exists acc'. split; auto. destruct r as [u|e].
        -- destruct Hr as (d' & Hres & ->).
           exists ((k, rv) :: d'). split; [|reflexivity].
           eapply resolved_rv; eauto.
        -- destruct Hr as (k1 & v1 & hs2 & Hin & Hn & Hreg1).
           exists k1, v1, hs2. split; auto. apply elem_of_cons. now right.
      * inversion Hrun; subst. simpl. exists acc. split; auto.
        exists k, v, hs. split; auto. apply elem_of_cons. now left.
Qed.

Lemma resolve_loop_total model pre (h0 : list object) its hs d' hs' :
  resolved model pre h0 its hs d' hs' ->
  forall acc,
    for_each its (resolve_entry model pre (VRef (length h0)))
      (mkState (h0 ++ [ODict acc]) hs) =
    (Ok tt, mkState (h0 ++ [ODict (dict_update acc d')]) hs').
Proof.
  induction 1 as [hs|k v d hs d' hs' Hnum _ IH|k v rv d hs hs1 d' hs' Hnum Hreg _ IH];
    intros acc.
  - reflexivity.
  - rewrite for_each_cons. unfold bind at 1.
    rewrite resolve_entry_run, Hnum. apply IH.
  - rewrite for_each_cons. unfold bind at 1.
    rewrite resolve_entry_run, Hnum, Hreg. apply IH.
Qed.

(** What [resolved] says about the keys and about single entries. *)
Lemma resolved_keys model pre h d hs d' hs' :
  resolved model pre h d hs d' hs' -> dict_keys d' = dict_keys d.
Proof.
  induction 1; auto; rewrite !dict_keys_cons; now f_equal.
Qed.

Lemma resolved_const_host model pre h d hs d' hs' :
  resolved model pre h d hs d' hs' ->
  (forall k v, (k, v) ∈ d -> is_numeric h v = true) ->
  d' = d /\ hs' = hs.
Proof.
  induction 1 as [hs|k v d hs d' hs' Hnum _ IH|k v rv d hs hs1 d' hs' Hnum Hreg _ IH];
    intros Hall.
  - auto.
  - destruct IH as [-> ->]; auto.
    intros k0 v0 Hin. apply (Hall k0 v0). apply elem_of_cons. now right.
  - rewrite (Hall k v) in Hnum; [discriminate|]. apply elem_of_cons. now left.
Qed.

Lemma resolved_entry model pre h d hs d' hs' k v :
  resolved model pre h d hs d' hs' ->
  NoDup (dict_keys d) ->
  dict_get d k = Some v ->
  if is_numeric h v then dict_get d' k = Some v
  else exists rv hs1 hs2,
         register_rv model v (pre +:+ k) hs1 = (Ok rv, hs2) /\
         dict_get d' k = Some rv.
Proof.
  induction 1 as [hs|k0 v0 d hs d' hs' Hnum _ IH|k0 v0 rv d hs hs1 d' hs' Hnum Hreg _ IH];
    intros Hnd Hget.
  - discriminate.
  - rewrite dict_keys_cons, NoDup_cons in Hnd. destruct Hnd as [_ Hnd].
    simpl in *. destruct (String.eqb k k0) eqn:E.
    + inversion Hget; subst. now rewrite Hnum.
    + now apply IH.
  - rewrite dict_keys_cons, NoDup_cons in Hnd. destruct Hnd as [_ Hnd].
    simpl in *. destruct (String.eqb k k0) eqn:E.
    + inversion Hget; subst. rewrite Hnum. apply String.eqb_eq in E. subst k0.
      now exists rv, hs, hs1.
    + now apply IH.
Qed.

(** ** [_get_priors] *)

Lemma items_pure recv st r st' : items recv st = (r, st') -> st' = st.
Proof.
  unfold items. destruct recv; unfold_monad; try (intros [= _ <-]; reflexivity).
  destruct (heap st !! a) as [[d|xs|c attrs|c d]|]; intros [= _ <-]; reflexivity.
Qed.

Lemma get_priors_unfold self model name st :
  _get_priors self model name st =
  match modelcontext model (host st) with
  | Raise e => (Raise e, st)
  | Ok m =>
      match getattr self "priors" (with_new_dict st) with
      | (Raise e, _) => (Raise e, with_new_dict st)
      | (Ok sp, _) =>
          match items sp (with_new_dict st) with
          | (Raise e, _) => (Raise e, with_new_dict st)
          | (Ok its, _) =>
              match for_each its
                      (resolve_entry m (with_underscore name)
                         (VRef (length (heap st)))) (with_new_dict st) with
              | (Ok _, st') => (Ok (VRef (length (heap st))), st')
              | (Raise e, st') => (Raise e, st')
              end
          end
      end
  end.
Proof.
  unfold _get_priors. unfold bind at 1. unfold host_read.
  destruct (modelcontext model (host st)) as [m|e]; [|reflexivity].
  unfold bind at 1. unfold alloc at 1. fold (with_new_dict st).
  unfold bind at 1.
  destruct (getattr self "priors" (with_new_dict st)) as [[sp|e] st1] eqn:Hg;
    apply getattr_pure in Hg; subst st1; [|reflexivity].
  unfold bind at 1.
  destruct (items sp (with_new_dict st)) as [[its|e] st1] eqn:Hi;
    apply items_pure in Hi; subst st1; [|reflexivity].
  unfold bind at 1.
  destruct (for_each its _ (with_new_dict st)) as [[u|e] st1]; reflexivity.
Qed.

(** Without a model context nothing else happens. *)
Lemma get_priors_context_error self model name st e :
  modelcontext model (host st) = Raise e ->
  _get_priors self model name st = (Raise e, st).
Proof. intros Hm. now rewrite get_priors_unfold, Hm. Qed.

(** The only object [_get_priors] creates or writes is its new dictionary,
    which is what it returns. *)
Lemma get_priors_heap self model name st r st' :
  _get_priors self model name st = (r, st') ->
  match r with
  | Ok v => v = VRef (length (heap st)) /\
            exists acc, heap st' = heap st ++ [ODict acc]
  | Raise _ => heap st' = heap st \/ exists acc, heap st' = heap st ++ [ODict acc]
  end.
Proof.
  rewrite get_priors_unfold.
  destruct (modelcontext model (host st)) as [m|e]; [|intros [= <- <-]; now left].
  destruct (getattr self "priors" (with_new_dict st)) as [[sp|e] st1];
    [|intros [= <- <-]; right; now exists []].
  destruct (items sp (with_new_dict st)) as [[its|e] st2];
    [|intros [= <- <-]; right; now exists []].
  destruct (for_each its _ (with_new_dict st)) as [r' st3] eqn:Hloop.
  apply resolve_loop_inv in Hloop. destruct Hloop as (acc' & Hheap & _).
  destruct r'; intros [= <- <-].
  - split; auto. now exists acc'.
  - right. now exists acc'.
Qed.

Lemma get_priors_preserves self model name st r st' :
  _get_priors self model name st = (r, st') -> preserves (heap st) (heap st').
Proof.
  intros Hrun. apply get_priors_heap in Hrun.
  destruct r as [v|e].
  - destruct Hrun as [_ [acc ->]]. apply preserves_app.
  - destruct Hrun as [-> | [acc ->]]; [apply preserves_refl | apply preserves_app].
Qed.

Lemma getattr_with_new_dict self k v st :
  getattr self k st = (Ok v, st) ->
  getattr self k (with_new_dict st) = (Ok v, with_new_dict st).
Proof. intros Hg. eapply getattr_preserved; eauto. apply preserves_app. Qed.

(** When [self.priors] is a dictionary, [_get_priors] returns a new
    dictionary holding the resolved entries, unless the host raises. *)
Lemma get_priors_inv self model name st ap d r st' :
  getattr self "priors" st = (Ok (VRef ap), st) ->
  heap st !! ap = Some (ODict d) ->
  _get_priors self model name st = (r, st') ->
  match r with
  | Ok v =>
      exists m d',
        modelcontext model (host st) = Ok m /\
        resolved m (with_underscore name) (heap st) d (host st) d' (host st') /\
        v = VRef (length (heap st)) /\
        heap st' = heap st ++ [ODict (dict_update [] d')]
  | Raise e =>
      modelcontext model (host st) = Raise e \/
      exists m k v hs1,
        modelcontext model (host st) = Ok m /\
        (k, v) ∈ d /\ is_numeric (heap st) v = false /\
        register_rv m v (with_underscore name +:+ k) hs1 = (Raise e, host st')
  end.
Proof.
  intros Hg Hd. rewrite get_priors_unfold.
  destruct (modelcontext model (host st)) as [m|e]; [|intros [= <- <-]; now left].
  rewrite (getattr_with_new_dict _ _ _ _ Hg).
  rewrite (items_dict ap d) by (apply lookup_app_l_Some, Hd).
  destruct (for_each d _ (with_new_dict st)) as [r' st1] eqn:Hloop.
  apply resolve_loop_inv in Hloop.
  destruct Hloop as (acc' & Hheap & Hr).
  destruct r' as [u|e]; intros [= <- <-].
  - destruct Hr as (d' & Hres & ->). now exists m, d'.
  - right. destruct Hr as (k & v & hs1 & Hin & Hn & Hreg).
    now exists m, k, v, hs1.
Qed.

(** Conversely, when the context lookup and every registration succeed,
    [_get_priors] returns. *)
Lemma get_priors_total self model name st ap d m d' hs' :
  getattr self "priors" st = (Ok (VRef ap), st) ->
  heap st !! ap = Some (ODict d) ->
  modelcontext model (host st) = Ok m ->
  resolved m (with_underscore name) (heap st) d (host st) d' hs' ->
  _get_priors self model name st =
  (Ok (VRef (length (heap st))),
   mkState (heap st ++ [ODict (dict_update [] d')]) hs').
Proof.
  intros Hg Hd Hm Hres. rewrite get_priors_unfold, Hm.
  rewrite (getattr_with_new_dict _ _ _ _ Hg).
  rewrite (items_dict ap d) by (apply lookup_app_l_Some, Hd).
  unfold with_new_dict.
  now rewrite (resolve_loop_total _ _ _ _ _ _ _ Hres).
Qed.

(** A [priors] attribute that is [None] has no [items]: nothing is
    registered. *)
Lemma get_priors_None self model name st :
  getattr self "priors" st = (Ok VNone, st) ->
  exists e st',
    _get_priors self model name st = (Raise e, st') /\
    host st' = host st /\
    (forall m, modelcontext model (host st) = Ok m -> e = AttributeError).
Proof.
  intros Hg. rewrite get_priors_unfold.
  destruct (modelcontext model (host st)) as [m|e].
  - rewrite (getattr_with_new_dict _ _ _ _ Hg). simpl.
    exists AttributeError, (with_new_dict st). auto.
  - exists e, st. repeat split; auto. discriminate.
Qed.

(** ** Calls *)

Lemma call_kw_heap f args kwargs st r st' :
  call_kw f args kwargs st = (r, st') -> heap st' = heap st.
Proof.
  unfold call_kw. destruct f; unfold_monad; try (intros [= _ <-]; reflexivity).
  - destruct args as [|x [|y args]]; destruct kwargs as [|[k v] [|kv kwargs]];
      try (intros [= _ <-]; reflexivity).
    destruct (String.eqb k "x"); intros [= _ <-]; reflexivity.
  - destruct (dist_new c args kwargs (host st)) as [r0 hs].
    intros [= _ <-]. reflexivity.
Qed.

(** ** [create_likelihood] *)

Lemma create_likelihood_context_error self name y_est y_data model st e :
  modelcontext model (host st) = Raise e ->
  create_likelihood self name y_est y_data model st = (Raise e, st).
Proof.
  intros Hm. unfold create_likelihood. unfold bind at 1.
  now rewrite (get_priors_context_error _ _ _ _ _ Hm).
Qed.

Lemma call_likelihood_heap self name y_data priors st r st' :
  call_likelihood self name y_data priors st = (r, st') -> heap st' = heap st.
Proof.
  unfold call_likelihood. unfold bind at 1.
  destruct (getattr self "likelihood" st) as [[lik|e] s] eqn:Hg;
    apply getattr_pure in Hg; subst s; [|intros [= _ <-]; reflexivity].
  unfold bind at 1.
  destruct (items priors st) as [[kw|e] s] eqn:Hi;
    apply items_pure in Hi; subst s; [|intros [= _ <-]; reflexivity].
  destruct (dict_mem kw "observed").
  - unfold raise. intros [= _ <-]. reflexivity.
  - apply call_kw_heap.
Qed.

Lemma refuse_parent_heap self parent st r st' :
  refuse_parent self parent st = (r, st') -> heap st' = heap st.
Proof.
  unfold refuse_parent. destruct (is_hashable (heap st) parent).
  - unfold bind.
    destruct (getattr self "likelihood" st) as [[lik|e] s] eqn:Hg;
      apply getattr_pure in Hg; subst s; unfold raise;
      intros [= _ <-]; reflexivity.
  - unfold raise. intros [= _ <-]. reflexivity.
Qed.

(** [create_likelihood] once the resolved priors, the link, the parent and
    the likelihood are at hand: the entry of the parent is set to the value
    of the link, and the mapping goes to the likelihood as keywords. *)
Lemma create_likelihood_run self name y_est y_data model st r st1 l lv st2 p lik :
  _get_priors self model name st = (Ok r, st1) ->
  getattr self "link" st = (Ok l, st) ->
  call_kw l [y_est] [] st1 = (Ok lv, st2) ->
  getattr self "parent" st = (Ok (VStr p), st) ->
  getattr self "likelihood" st = (Ok lik, st) ->
  exists acc,
    r = VRef (length (heap st)) /\
    heap st1 = heap st ++ [ODict acc] /\
    let kw := dict_set acc p lv in
    let st3 := mkState (heap st ++ [ODict kw]) (host st2) in
    create_likelihood self name y_est y_data model st =
    if dict_mem kw "observed" then (Raise TypeError, st3)
    else call_kw lik [VStr (with_underscore name +:+ "y")]
           (("observed", y_data) :: kw) st3.
Proof.
  intros Hp Hl Hc Hpar Hlik.
  pose proof (get_priors_heap _ _ _ _ _ _ Hp) as [-> [acc Hh1]].
  exists acc. split; [reflexivity|]. split; [exact Hh1|]. cbn zeta.
  pose proof (call_kw_heap _ _ _ _ _ _ Hc) as Hh2.
  assert (Hp1 : preserves (heap st) (heap st1))
    by (rewrite Hh1; apply preserves_app).
  assert (Hp2 : preserves (heap st) (heap st2)) by now rewrite Hh2.
  unfold create_likelihood. unfold bind at 1. rewrite Hp.
  unfold bind at 1. rewrite (getattr_preserved _ _ _ _ _ st1 Hl Hp1).
  unfold bind at 1. rewrite Hc.
  unfold bind at 1. rewrite (getattr_preserved _ _ _ _ _ st2 Hpar Hp2).
  unfold bind at 1.
  rewrite (setitem_dict _ acc)
    by (rewrite Hh2, Hh1; apply lookup_snoc_new).
  rewrite Hh2, Hh1, insert_snoc.
  set (st3 := mkState _ (host st2)).
  assert (Hp3 : preserves (heap st) (heap st3)) by apply preserves_app.
  unfold call_likelihood. unfold bind at 1.
  rewrite (getattr_preserved _ _ _ _ _ st3 Hlik Hp3).
  unfold bind at 1.
  rewrite (items_dict _ (dict_set acc p lv)) by apply lookup_snoc_new.
  now destruct (dict_mem (dict_set acc p lv) "observed").
Qed.

(** [create_likelihood] writes to no object that existed before the call. *)
Lemma create_likelihood_heap self name y_est y_data model st r st' :
  create_likelihood self name y_est y_data model st = (r, st') ->
  heap st' = heap st \/ exists acc, heap st' = heap st ++ [ODict acc].
Proof.
  unfold create_likelihood. unfold bind at 1.
  destruct (_get_priors self model name st) as [[v|e] st1] eqn:Hp;
    apply get_priors_heap in Hp; [|intros [= _ <-]; exact Hp].
  destruct Hp as [-> [acc Hh1]].
  unfold bind at 1.
  destruct (getattr self "link" st1) as [[l|e] s] eqn:Hg;
    apply getattr_pure in Hg; subst s;
    [|intros [= _ <-]; right; now exists acc].
  unfold bind at 1.
  destruct (call_kw l [y_est] [] st1) as [[lv|e] st2] eqn:Hc;
    apply call_kw_heap in Hc;
    [|intros [= _ <-]; right; exists acc; congruence].
  unfold bind at 1.
  destruct (getattr self "parent" st2) as [[parent|e] s] eqn:Hg;
    apply getattr_pure in Hg; subst s;
    [|intros [= _ <-]; right; exists acc; congruence].
  destruct parent;
    try (intros Hrun; apply refuse_parent_heap in Hrun;
         right; exists acc; congruence).
  unfold bind at 1.
  rewrite (setitem_dict _ acc) by (rewrite Hc, Hh1; apply lookup_snoc_new).
  rewrite Hc, Hh1, insert_snoc.
  intros Hrun. apply call_likelihood_heap in Hrun. simpl in Hrun.
  right. now exists (dict_set acc s lv).
Qed.

Lemma create_likelihood_preserves self name y_est y_data model st r st' :
  create_likelihood self name y_est y_data model st = (r, st') ->
  preserves (heap st) (heap st').
Proof.
  intros Hrun. apply create_likelihood_heap in Hrun.
  destruct Hrun as [-> | [acc ->]]; [apply preserves_refl | apply preserves_app].
Qed.

(** ** [__init__] *)

Lemma for_each_app {A} (l1 l2 : list A) (body : A -> M unit) st :
  for_each (l1 ++ l2) body st = (for_each l1 body ;;; for_each l2 body) st.
Proof.
  revert st. induction l1 as [|x l1 IH]; intros st; [reflexivity|].
  simpl. unfold bind in *.
  destruct (body x st) as [[u|e] st1]; [|reflexivity]. apply IH.
Qed.

Lemma dict_update_app (d d1 d2 : dict) :
  dict_update d (d1 ++ d2) = dict_update (dict_update d d1) d2.
Proof. unfold dict_update. apply fold_left_app. Qed.

Lemma dict_get_update_other (d d2 : dict) k :
  k ∉ dict_keys d2 -> dict_get (dict_update d d2) k = dict_get d k.
Proof.
  revert d. induction d2 as [|[k' v'] d2 IH]; intros d Hk; [reflexivity|].
  rewrite dict_keys_cons, not_elem_of_cons in Hk. destruct Hk as [Hne Hk].
  rewrite dict_update_cons, IH by exact Hk. apply dict_get_set_ne. congruence.
Qed.

Lemma reserved_attr_false k :
  reserved_attr k = false ->
  String.eqb k "__weakref__" = false /\ String.eqb k "__class__" = false /\
  String.eqb k "__dict__" = false.
Proof.
  unfold reserved_attr. intros Hk.
  apply orb_false_iff in Hk. destruct Hk as [Hk Hd].
  apply orb_false_iff in Hk. tauto.
Qed.

Lemma plain_keywords_cons k v kw :
  plain_keywords ((k, v) :: kw) = true ->
  String.eqb k "self" = false /\ reserved_attr k = false /\
  plain_keywords kw = true.
Proof.
  unfold plain_keywords. rewrite dict_keys_cons. simpl forallb.
  intros Hk. apply andb_true_iff in Hk. destruct Hk as [Hk Hkw].
  apply negb_true_iff, orb_false_iff in Hk. tauto.
Qed.

Lemma plain_keywords_app kw1 kw2 :
  plain_keywords kw1 = true -> plain_keywords kw2 = true ->
  plain_keywords (kw1 ++ kw2) = true.
Proof.
  unfold plain_keywords. rewrite dict_keys_app, forallb_app.
  intros -> ->. reflexivity.
Qed.

Lemma plain_keywords_app_inv kw1 kw2 :
  plain_keywords (kw1 ++ kw2) = true ->
  plain_keywords kw1 = true /\ plain_keywords kw2 = true.
Proof.
  unfold plain_keywords. rewrite dict_keys_app, forallb_app.
  apply andb_true_iff.
Qed.

Lemma plain_keywords_no_self kw :
  plain_keywords kw = true -> dict_mem kw "self" = false.
Proof.
  induction kw as [|[k v] kw IH]; [reflexivity|].
  intros Hk. apply plain_keywords_cons in Hk. destruct Hk as (Hs & _ & Hkw).
  unfold dict_mem in *. cbn [dict_get]. rewrite String.eqb_sym, Hs.
  now apply IH.
Qed.

Lemma setattr_inst a c attrs k v st :
  heap st !! a = Some (OInst c attrs) ->
  reserved_attr k = false ->
  setattr (VRef a) k v st =
  (Ok tt, mkState (<[a:=OInst c (dict_set attrs k v)]> (heap st)) (host st)).
Proof.
  intros Ha Hk. apply reserved_attr_false in Hk. destruct Hk as (Hw & Hc & Hd).
  unfold setattr. unfold_monad. now rewrite Ha, Hw, Hc, Hd.
Qed.

(** Plain keywords other than ["priors"] end up, unchecked, in the
    instance dictionary. *)
Lemma init_plain a c kw :
  "priors" ∉ dict_keys kw ->
  plain_keywords kw = true ->
  forall attrs st,
    heap st !! a = Some (OInst c attrs) ->
    for_each kw (override (VRef a)) st =
    (Ok tt, mkState (<[a:=OInst c (dict_update attrs kw)]> (heap st)) (host st)).
Proof.
  induction kw as [|[k v] kw IH]; intros Hk Hplain attrs st Ha.
  - simpl. unfold ret. rewrite list_insert_id by exact Ha. now destruct st.
  - rewrite dict_keys_cons, not_elem_of_cons in Hk. destruct Hk as [Hne Hk].
    apply plain_keywords_cons in Hplain. destruct Hplain as (_ & Hres & Hplain).
    rewrite for_each_cons. unfold bind. unfold override.
    assert (E : String.eqb k "priors" = false) by (apply String.eqb_neq; congruence).
    rewrite E, (setattr_inst a c attrs k v st Ha Hres).
    rewrite (IH Hk Hplain (dict_set attrs k v)); cbn [heap host].
    + now rewrite list_insert_insert_eq.
    + apply list_lookup_insert_eq. now apply lookup_lt_Some in Ha.
Qed.

(** The keyword ["priors"] on an instance that has no [priors] of its own
    yet, for a class whose [priors] is a dictionary: the dictionary is
    copied, the copy becomes the instance's [priors] and is updated. *)
Lemma override_priors a c attrs a0 d0 b d2 st :
  heap st !! a = Some (OInst c attrs) ->
  dict_get attrs "priors" = None ->
  class_lookup c "priors" = Some (VRef a0) ->
  heap st !! a0 = Some (ODict d0) ->
  heap st !! b = Some (ODict d2) ->
  override (VRef a) ("priors", VRef b) st =
  (Ok tt,
   mkState (<[a:=OInst c (dict_set attrs "priors" (VRef (length (heap st))))]>
              (heap st) ++ [ODict (dict_update d0 d2)])
           (host st)).
Proof.
  intros Ha Hattrs Hcls Ha0 Hb.
  assert (Hlt : a < length (heap st)) by now apply lookup_lt_Some in Ha.
  assert (Hab : a <> b) by (intros ->; congruence).
  unfold override. rewrite String.eqb_refl.
  unfold bind at 1. rewrite (getattr_inst a c attrs), Hattrs, Hcls by exact Ha.
  unfold bind at 1. unfold copy. unfold bind at 1. unfold get_obj at 1.
  rewrite Ha0. cbv iota. unfold bind at 1. unfold alloc, ret. cbn [heap host].
  set (n := length (heap st)).
  unfold bind at 1.
  rewrite (setattr_inst a c attrs "priors" (VRef n)
             (mkState (heap st ++ [ODict d0]) (host st))
             (lookup_app_l_Some _ _ _ _ Ha) eq_refl).
  cbn [heap host]. rewrite insert_app_l by exact Hlt.
  set (h1 := <[a:=_]> (heap st)).
  assert (Hn : length h1 = n) by apply length_insert.
  unfold bind at 1.
  rewrite (getattr_inst a c (dict_set attrs "priors" (VRef n)));
    [|cbn [heap]; apply lookup_app_l_Some; subst h1;
      now apply list_lookup_insert_eq].
  rewrite dict_get_set_eq.
  unfold update. unfold bind at 1. unfold get_obj at 1. cbn [heap].
  rewrite <- Hn at 1. rewrite lookup_snoc_new.
  unfold bind at 1. unfold get_obj at 1. cbn [heap].
  assert (Hb1 : (h1 ++ [ODict d0]) !! b = Some (ODict d2)).
  { apply lookup_app_l_Some. subst h1. now rewrite list_lookup_insert_ne. }
  rewrite Hb1. unfold put_obj. cbn [heap host].
  rewrite <- Hn at 1. now rewrite insert_snoc.
Qed.

(** With plain keywords and without the keyword ["priors"], construction
    cannot fail. *)
Lemma construct_plain c kw st :
  "priors" ∉ dict_keys kw ->
  plain_keywords kw = true ->
  construct c kw st =
  (Ok (VRef (length (heap st))),
   mkState (heap st ++ [OInst c (dict_update [] kw)]) (host st)).
Proof.
  intros Hk Hplain. unfold construct, __init__. unfold bind at 1.
  unfold alloc at 1. rewrite (plain_keywords_no_self kw Hplain).
  unfold bind at 1.
  rewrite (init_plain _ c kw Hk Hplain [])
    by (cbn [heap]; apply lookup_snoc_new).
  cbn [heap host]. unfold bind, ret. now rewrite insert_snoc.
Qed.

(** With it, on a class whose [priors] is a dictionary. *)
Lemma construct_priors c kw1 kw2 a0 d0 b d2 st :
  "priors" ∉ dict_keys kw1 ->
  "priors" ∉ dict_keys kw2 ->
  plain_keywords kw1 = true ->
  plain_keywords kw2 = true ->
  class_lookup c "priors" = Some (VRef a0) ->
  heap st !! a0 = Some (ODict d0) ->
  heap st !! b = Some (ODict d2) ->
  let a := length (heap st) in
  construct c (kw1 ++ ("priors", VRef b) :: kw2) st =
  (Ok (VRef a),
   mkState (heap st ++
              [OInst c (dict_update [] (kw1 ++ ("priors", VRef (S a)) :: kw2));
               ODict (dict_update d0 d2)])
           (host st)).
Proof.
  intros Hk1 Hk2 Hp1 Hp2 Hcls Ha0 Hb a.
  assert (Hp : plain_keywords (kw1 ++ ("priors", VRef b) :: kw2) = true).
  { apply plain_keywords_app; [exact Hp1|].
    now apply (plain_keywords_app [("priors", VRef b)] kw2). }
  unfold construct, __init__. unfold bind at 1. unfold alloc at 1.
  rewrite (plain_keywords_no_self _ Hp).
  unfold bind at 1. rewrite for_each_app. unfold bind at 1.
  rewrite (init_plain _ c kw1 Hk1 Hp1 [])
    by (cbn [heap]; apply lookup_snoc_new).
  cbn [heap host]. rewrite insert_snoc.
  rewrite for_each_cons. unfold bind at 1.
  rewrite (override_priors _ c (dict_update [] kw1) a0 d0 b d2); cbn [heap host].
  - rewrite insert_snoc.
    rewrite (init_plain _ c kw2 Hk2 Hp2
               (dict_set (dict_update [] kw1) "priors"
                  (VRef (length (heap st ++ [OInst c (dict_update [] kw1)]))))).
    + cbn [heap host]. unfold ret.
      rewrite insert_app_l by (rewrite length_app; simpl; lia).
      rewrite insert_snoc, <- app_assoc. simpl.
      rewrite length_app. simpl.
      replace (length (heap st) + 1) with (S a) by (subst a; lia).
      now rewrite dict_update_app, dict_update_cons.
    + cbn [heap]. apply lookup_app_l_Some, lookup_snoc_new.
  - apply lookup_snoc_new.
  - now rewrite dict_get_update_other.
  - exact Hcls.
  - now apply lookup_app_l_Some.
  - now apply lookup_app_l_Some.
Qed.

(** On a class whose [priors] is [None] the update has nothing to update. *)
Lemma construct_priors_None c val st :
  class_lookup c "priors" = Some VNone ->
  construct c [("priors", val)] st =
  (Raise AttributeError,
   mkState (heap st ++ [OInst c [("priors", VNone)]]) (host st)).
Proof.
  intros Hcls. unfold construct, __init__. unfold bind at 1. unfold alloc at 1.
  change (dict_mem [("priors", val)] "self") with false. cbv iota.
  unfold bind at 1. rewrite for_each_cons. unfold bind at 1.
  unfold override. rewrite String.eqb_refl.
  unfold bind at 1.
  rewrite (getattr_inst _ c []) by (cbn [heap]; apply lookup_snoc_new).
  simpl dict_get. rewrite Hcls.
  unfold bind at 1. unfold copy, ret.
  unfold bind at 1.
  rewrite (setattr_inst _ c [] "priors" VNone
             (mkState (heap st ++ [OInst c []]) (host st))
             (lookup_snoc_new _ _) eq_refl).
  cbn [heap host]. rewrite insert_snoc. simpl dict_set.
  unfold bind at 1.
  rewrite (getattr_inst _ c [("priors", VNone)])
    by (cbn [heap]; apply lookup_snoc_new).
  reflexivity.
Qed.

(** ** Resolving the priors and attaching the likelihood *)

Lemma resolved_update_nil model pre h d hs d' hs' :
  resolved model pre h d hs d' hs' ->
  NoDup (dict_keys d) ->
  dict_update [] d' = d'.
Proof.
  intros Hres Hnd. apply (dict_update_fresh [] d'). simpl.
  now rewrite (resolved_keys _ _ _ _ _ _ _ Hres).
Qed.

(** C1. Whatever [self.priors] holds, and so whatever prior was supplied
    under the parent's name at construction, [create_likelihood] sets the
    [parent] entry of the mapping returned by [_get_priors] to the value of
    [link(y_est)] and only then calls the likelihood, with that mapping as
    keyword arguments. *)
Theorem create_likelihood_overwrites_parent
    self name y_est y_data model st ap d r st1 l lv st2 p lik :
  getattr self "priors" st = (Ok (VRef ap), st) ->
  heap st !! ap = Some (ODict d) ->
  NoDup (dict_keys d) ->
  _get_priors self model name st = (Ok r, st1) ->
  getattr self "link" st = (Ok l, st) ->
  call_kw l [y_est] [] st1 = (Ok lv, st2) ->
  getattr self "parent" st = (Ok (VStr p), st) ->
  getattr self "likelihood" st = (Ok lik, st) ->
  exists m d',
    modelcontext model (host st) = Ok m /\
    resolved m (with_underscore name) (heap st) d (host st) d' (host st1) /\
    let kw := dict_set d' p lv in
    let st3 := mkState (heap st ++ [ODict kw]) (host st2) in
    dict_get kw p = Some lv /\
    (forall k, k <> p -> dict_get kw k = dict_get d' k) /\
    create_likelihood self name y_est y_data model st =
    if dict_mem kw "observed" then (Raise TypeError, st3)
    else call_kw lik [VStr (with_underscore name +:+ "y")]
           (("observed", y_data) :: kw) st3.
Proof.
  intros Hg Hd Hnd Hp Hl Hc Hpar Hlik.
  pose proof (get_priors_inv _ _ _ _ _ _ _ _ Hg Hd Hp) as (m & d' & Hm & Hres & _ & Hh1).
  rewrite (resolved_update_nil _ _ _ _ _ _ _ Hres Hnd) in Hh1.
  destruct (create_likelihood_run _ _ _ y_data _ _ _ _ _ _ _ _ _ Hp Hl Hc Hpar Hlik)
    as (acc & _ & Hacc & Hrun).
  rewrite Hh1 in Hacc. apply app_inv_head in Hacc. inversion Hacc; subst acc.
  exists m, d'. split; [exact Hm|]. split; [exact Hres|]. cbn zeta.
  split; [apply dict_get_set_eq|]. split; [|exact Hrun].
  intros k Hk. apply dict_get_set_ne. congruence.
Qed.

(** C2. When [self.priors] is a dictionary, [_get_priors] returns a new
    dictionary with the same keys in the same order, unless the host
    raises: an entry whose value is a number, a numpy scalar or an array is
    kept as it is and nothing is registered for it, any other entry is
    replaced by what [register_rv] returned for it. *)
Theorem get_priors_keys_and_entries self model name st ap d :
  getattr self "priors" st = (Ok (VRef ap), st) ->
  heap st !! ap = Some (ODict d) ->
  NoDup (dict_keys d) ->
  match _get_priors self model name st with
  | (Ok r, st') =>
      exists m d',
        modelcontext model (host st) = Ok m /\
        r = VRef (length (heap st)) /\
        heap st' = heap st ++ [ODict d'] /\
        dict_keys d' = dict_keys d /\
        resolved m (with_underscore name) (heap st) d (host st) d' (host st') /\
        (forall k v, dict_get d k = Some v ->
           if is_numeric (heap st) v then dict_get d' k = Some v
           else exists rv hs1 hs2,
                  register_rv m v (with_underscore name +:+ k) hs1 = (Ok rv, hs2) /\
                  dict_get d' k = Some rv) /\
        ((forall k v, (k, v) ∈ d -> is_numeric (heap st) v = true) ->
           d' = d /\ host st' = host st)
  | (Raise e, st') =>
      modelcontext model (host st) = Raise e \/
      exists m k v hs1,
        modelcontext model (host st) = Ok m /\
        (k, v) ∈ d /\ is_numeric (heap st) v = false /\
        register_rv m v (with_underscore name +:+ k) hs1 = (Raise e, host st')
  end.
Proof.
  intros Hg Hd Hnd.
  destruct (_get_priors self model name st) as [[r|e] st'] eqn:Hp;
    pose proof (get_priors_inv _ _ _ _ _ _ _ _ Hg Hd Hp) as Hinv; [|exact Hinv].
  destruct Hinv as (m & d' & Hm & Hres & -> & Hh).
  rewrite (resolved_update_nil _ _ _ _ _ _ _ Hres Hnd) in Hh.
  exists m, d'. repeat split; auto.
  - eapply resolved_keys; eauto.
  - intros k v Hk. eapply resolved_entry; eauto.
  - eapply resolved_const_host; eauto.
  - eapply resolved_const_host; eauto.
Qed.

(** C8. [_get_priors] looks the model context up before anything else, so
    when the host's lookup raises, [_get_priors] and [create_likelihood]
    raise the same exception and leave the state as it was, whatever
    [self.priors] holds. *)
Theorem no_model_context_fails self model name y_est y_data st e :
  modelcontext model (host st) = Raise e ->
  _get_priors self model name st = (Raise e, st) /\
  create_likelihood self name y_est y_data model st = (Raise e, st).
Proof.
  intros Hm. split.
  - now apply get_priors_context_error.
  - now apply create_likelihood_context_error.
Qed.

(** C10. [create_likelihood] leaves [self.priors] alone: after the call,
    whether it returned or raised, the attribute refers to the same
    dictionary with the same entries, and every object that existed before
    the call is unchanged. *)
Theorem create_likelihood_keeps_stored_priors
    self name y_est y_data model st ap d :
  getattr self "priors" st = (Ok (VRef ap), st) ->
  heap st !! ap = Some (ODict d) ->
  let st' := snd (create_likelihood self name y_est y_data model st) in
  getattr self "priors" st' = (Ok (VRef ap), st') /\
  heap st' !! ap = Some (ODict d) /\
  preserves (heap st) (heap st').
Proof.
  intros Hg Hd.
  destruct (create_likelihood self name y_est y_data model st) as [r st'] eqn:Hrun.
  simpl. apply create_likelihood_preserves in Hrun.
  split; [|split]; auto. eapply getattr_preserved; eauto.
Qed.

(** ** Construction *)

Lemma lookup_app_new (h l : list object) i : (h ++ l) !! (length h + i) = l !! i.
Proof. rewrite lookup_app_r by lia. f_equal. lia. Qed.

Lemma lookup_app_second (h : list object) o1 o2 :
  (h ++ [o1; o2]) !! S (length h) = Some o2.
Proof.
  replace (S (length h)) with (length h + 1) by lia. now rewrite lookup_app_new.
Qed.

Lemma lookup_app_first (h : list object) o l :
  (h ++ o :: l) !! length h = Some o.
Proof. apply list_lookup_middle. reflexivity. Qed.

(** An instance attribute set at construction is what [getattr] finds. *)
Lemma getattr_constructed a c kw k v st :
  heap st !! a = Some (OInst c (dict_update [] kw)) ->
  NoDup (dict_keys kw) ->
  (k, v) ∈ kw ->
  getattr (VRef a) k st = (Ok v, st).
Proof.
  intros Ha Hnd Hin. rewrite (getattr_inst _ _ _ _ _ Ha).
  now rewrite dict_get_update, (dict_get_elem_of kw k v) by assumption.
Qed.


(** C3, as the code has it.  [cls(priors=...)] on a class whose [priors]
    is a dictionary copies that dictionary one level deep: the instance gets
    a new dictionary of its own, which holds the supplied entries and, for
    every other key, the very value the class dictionary holds; the class
    dictionary and every other existing object are unchanged. *)
Theorem construct_merges_into_shallow_copy c a0 d0 b d2 st :
  class_lookup c "priors" = Some (VRef a0) ->
  heap st !! a0 = Some (ODict d0) ->
  heap st !! b = Some (ODict d2) ->
  NoDup (dict_keys d2) ->
  exists inst st' ai di,
    construct c [("priors", VRef b)] st = (Ok inst, st') /\
    getattr inst "priors" st' = (Ok (VRef ai), st') /\
    heap st !! ai = None /\
    heap st' !! ai = Some (ODict di) /\
    (forall k, dict_get di k =
               match dict_get d2 k with
               | Some v => Some v
               | None => dict_get d0 k
               end) /\
    heap st' !! a0 = Some (ODict d0) /\
    preserves (heap st) (heap st') /\
    host st' = host st.
Proof.
  intros Hcls Ha0 Hb Hnd.
  pose proof (construct_priors c [] [] a0 d0 b d2 st) as Hrun.
  cbn zeta in Hrun. simpl app in Hrun.
  eexists _, _, (S (length (heap st))), (dict_update d0 d2).
  split; [apply Hrun; auto; apply not_elem_of_nil|].
  split.
  { rewrite (getattr_inst (length (heap st)) c
               [("priors", VRef (S (length (heap st))))])
      by (cbn [heap]; apply lookup_app_first).
    reflexivity. }
  cbn [heap host].
  split; [apply lookup_ge_None_2; lia|].
  split; [apply lookup_app_second|].
  split; [intros k; now apply dict_get_update|].
  split; [now apply lookup_app_l_Some|].
  split; [apply preserves_app | reflexivity].
Qed.

(** ** The concrete families *)

Lemma create_likelihood_priors_error self name y_est y_data model st e st' :
  _get_priors self model name st = (Raise e, st') ->
  create_likelihood self name y_est y_data model st = (Raise e, st').
Proof. intros Hp. unfold create_likelihood. unfold bind at 1. now rewrite Hp. Qed.

(** A default-constructed instance of a class whose [priors] is [None]. *)
Lemma none_priors_fail c st model name y_est y_data val :
  class_lookup c "priors" = Some VNone ->
  let a := length (heap st) in
  exists st1,
    construct c [] st = (Ok (VRef a), st1) /\ host st1 = host st /\
    (exists e st2,
       _get_priors (VRef a) model name st1 = (Raise e, st2) /\
       host st2 = host st /\
       (forall m, modelcontext model (host st) = Ok m -> e = AttributeError)) /\
    (exists e st2,
       create_likelihood (VRef a) name y_est y_data model st1 = (Raise e, st2) /\
       host st2 = host st /\
       (forall m, modelcontext model (host st) = Ok m -> e = AttributeError)) /\
    (exists st2,
       construct c [("priors", val)] st = (Raise AttributeError, st2) /\
       host st2 = host st).
Proof.
  intros Hcls a.
  exists (mkState (heap st ++ [OInst c []]) (host st)).
  split; [apply construct_plain; [apply not_elem_of_nil|reflexivity]|]. split; [reflexivity|].
  set (st1 := mkState _ _).
  assert (Hg : getattr (VRef a) "priors" st1 = (Ok VNone, st1)).
  { rewrite (getattr_inst a c []) by apply lookup_snoc_new. simpl. now rewrite Hcls. }
  destruct (get_priors_None _ model name _ Hg) as (e & st2 & Hp & Hh & He).
  split; [|split].
  - now exists e, st2.
  - exists e, st2. split; [now apply create_likelihood_priors_error | auto].
  - eexists. split; [now apply construct_priors_None | reflexivity].
Qed.

(** C4. [StudentT], [Normal], [Poisson] and [NegativeBinomial] have
    [priors = None]: on a default-constructed instance [_get_priors] and
    [create_likelihood] raise and register nothing, the exception being the
    [AttributeError] of [None.items()] whenever the context lookup went
    through; construction with a [priors] keyword raises as well.
    [Binomial] alone has a dictionary, which [_get_priors] resolves. *)
Theorem families_without_priors_fail :
  (forall c,
     c ∈ [StudentT; Normal; Poisson; NegativeBinomial] ->
     forall st model name y_est y_data val,
       let a := length (heap st) in
       exists st1,
         construct c [] st = (Ok (VRef a), st1) /\ host st1 = host st /\
         (exists e st2,
            _get_priors (VRef a) model name st1 = (Raise e, st2) /\
            host st2 = host st /\
            (forall m, modelcontext model (host st) = Ok m ->
                       e = AttributeError)) /\
         (exists e st2,
            create_likelihood (VRef a) name y_est y_data model st1 =
              (Raise e, st2) /\
            host st2 = host st /\
            (forall m, modelcontext model (host st) = Ok m ->
                       e = AttributeError)) /\
         (exists st2,
            construct c [("priors", val)] st = (Raise AttributeError, st2) /\
            host st2 = host st)) /\
  (forall st model m name,
     preserves module_heap (heap st) ->
     modelcontext model (host st) = Ok m ->
     let a := length (heap st) in
     exists st1 st2,
       construct Binomial [] st = (Ok (VRef a), st1) /\
       _get_priors (VRef a) model name st1 = (Ok (VRef (S a)), st2) /\
       heap st2 !! S a = Some (ODict [("n", VNum 1)]) /\
       host st2 = host st).
Proof.
  split.
  - intros c Hc st model name y_est y_data val.
    apply none_priors_fail.
    repeat (apply elem_of_cons in Hc; destruct Hc as [->|Hc]; [reflexivity|]).
    now apply elem_of_nil in Hc.
  - intros st model m name Hmod Hm a.
    set (st1 := mkState (heap st ++ [OInst Binomial []]) (host st)).
    assert (Hg : getattr (VRef a) "priors" st1 = (Ok (VRef binomial_priors), st1)).
    { now rewrite (getattr_inst a Binomial []) by apply lookup_snoc_new. }
    assert (Hd : heap st1 !! binomial_priors = Some (ODict [("n", VNum 1)])).
    { apply lookup_app_l_Some, Hmod. reflexivity. }
    assert (Hres : resolved m (with_underscore name) (heap st1)
                     [("n", VNum 1)] (host st1) [("n", VNum 1)] (host st)).
    { apply resolved_const; [reflexivity | constructor]. }
    pose proof (get_priors_total _ model name _ _ _ _ _ _ Hg Hd Hm Hres) as Hp.
    eexists st1, _. split; [apply construct_plain; [apply not_elem_of_nil|reflexivity]|].
    cbn [heap st1] in Hp. rewrite length_app in Hp. simpl length in Hp.
    replace (length (heap st) + 1) with (S a) in Hp by (subst a; lia).
    split; [exact Hp|]. cbn [heap host]. split; [|reflexivity].
    rewrite <- app_assoc. apply lookup_app_second.
Qed.

(** C5. A default [Binomial] has the priors [{"n": 1}].  After
    [Binomial(priors={"n": 5})], [_get_priors] returns [{"n": 5}] and
    registers nothing, and [create_likelihood] calls the [Binomial]
    distribution with [n = 5] and [p] set to the value of
    [logit(y_est)]. *)
Theorem binomial_scenario st b model m name y_est y_data lv :
  preserves module_heap (heap st) ->
  heap st !! b = Some (ODict [("n", VNum 5)]) ->
  modelcontext model (host st) = Ok m ->
  call_kw logit [y_est] [] st = (Ok lv, st) ->
  let a := length (heap st) in
  (exists st1,
     construct Binomial [] st = (Ok (VRef a), st1) /\
     getattr (VRef a) "priors" st1 = (Ok (VRef binomial_priors), st1) /\
     heap st1 !! binomial_priors = Some (ODict [("n", VNum 1)])) /\
  (exists st1,
     construct Binomial [("priors", VRef b)] st = (Ok (VRef a), st1) /\
     host st1 = host st /\
     (exists ar st2,
        _get_priors (VRef a) model name st1 = (Ok (VRef ar), st2) /\
        heap st2 !! ar = Some (ODict [("n", VNum 5)]) /\
        host st2 = host st) /\
     (exists st3,
        create_likelihood (VRef a) name y_est y_data model st1 =
        host_step (dist_new "Binomial" [VStr (with_underscore name +:+ "y")]
                     [("observed", y_data); ("n", VNum 5); ("p", lv)]) st3 /\
        host st3 = host st)).
Proof.
  intros Hmod Hb Hm Hlv a.
  assert (Hd0 : heap st !! binomial_priors = Some (ODict [("n", VNum 1)]))
    by (apply Hmod; reflexivity).
  split.
  - exists (mkState (heap st ++ [OInst Binomial []]) (host st)).
    split; [apply construct_plain; [apply not_elem_of_nil|reflexivity]|]. split.
    + now rewrite (getattr_inst a Binomial []) by apply lookup_snoc_new.
    + now apply lookup_app_l_Some.
  - pose proof (construct_priors Binomial [] [] binomial_priors
                  [("n", VNum 1)] b [("n", VNum 5)] st) as Hrun.
    cbn zeta in Hrun. simpl app in Hrun. fold a in Hrun.
    change (dict_update [("n", VNum 1)] [("n", VNum 5)]) with [("n", VNum 5)] in Hrun.
    change (dict_update [] [("priors", VRef (S a))]) with [("priors", VRef (S a))] in Hrun.
    set (st1 := mkState (heap st ++ [OInst Binomial [("priors", VRef (S a))];
                                     ODict [("n", VNum 5)]]) (host st)) in *.
    assert (Hinst : heap st1 !! a = Some (OInst Binomial [("priors", VRef (S a))]))
      by apply lookup_app_first.
    assert (Hg : getattr (VRef a) "priors" st1 = (Ok (VRef (S a)), st1))
      by now rewrite (getattr_inst _ _ _ _ _ Hinst).
    assert (Hd : heap st1 !! S a = Some (ODict [("n", VNum 5)]))
      by apply lookup_app_second.
    assert (Hres : resolved m (with_underscore name) (heap st1)
                     [("n", VNum 5)] (host st1) [("n", VNum 5)] (host st))
      by (apply resolved_const; [reflexivity | constructor]).
    pose proof (get_priors_total _ model name _ _ _ _ _ _ Hg Hd Hm Hres) as Hp.
    change (dict_update [] [("n", VNum 5)]) with [("n", VNum 5)] in Hp.
    set (st2 := mkState (heap st1 ++ [ODict [("n", VNum 5)]]) (host st)) in *.
    exists st1. split; [apply Hrun; auto; apply not_elem_of_nil|].
    split; [reflexivity|]. split.
    + exists (length (heap st1)), st2. split; [exact Hp|].
      split; [apply lookup_snoc_new | reflexivity].
    + assert (Hc : call_kw logit [y_est] [] st2 = (Ok lv, st2)).
      { unfold call_kw, logit, lift_res in *. now inversion Hlv. }
      destruct (create_likelihood_run (VRef a) name y_est y_data model st1
                  _ _ logit lv st2 "p" (VDistClass "Binomial") Hp)
        as (acc & _ & Hacc & Hcl); auto;
        try (now rewrite (getattr_inst _ _ _ _ _ Hinst)).
      apply app_inv_head in Hacc. inversion Hacc; subst acc.
      cbn zeta in Hcl. eexists. split; [exact Hcl | reflexivity].
Qed.

(** ** Names *)




(** ** Link functions *)

Lemma sigmoid_bounds (x : R) : (0 < aet_den Sigmoid x < 1)%R.
Proof.
  simpl. pose proof (exp_pos (- x)) as He.
  set (e := Rtrigo_def.exp (- x)) in *.
  split.
  - apply Rdiv_lt_0_compat; lra.
  - apply (Rmult_lt_reg_r (1 + e)); [lra|].
    unfold Rdiv. rewrite Rmult_assoc, Rinv_l; lra.
Qed.

(** C9. [identity] returns its argument.  On real numbers, [inverse] is
    the reciprocal, [logit], the logistic sigmoid, takes its values
    strictly between 0 and 1, and [exp] is positive. *)
Theorem link_function_identities :
  (forall x st, call_kw identity [x] [] st = (Ok x, st)) /\
  (exists f, link_den identity = Some f /\ forall x : R, f x = x) /\
  (exists f, link_den inverse = Some f /\
             forall x : R, x <> 0%R -> f x = (1 / x)%R) /\
  (exists f, link_den logit = Some f /\ forall x : R, (0 < f x < 1)%R) /\
  (exists f, link_den exp = Some f /\ forall x : R, (0 < f x)%R).
Proof.
  split; [reflexivity|]. split; [|split; [|split]].
  - now exists (fun x => x).
  - exists (aet_den Inv). split; [reflexivity|].
    intros x _. simpl. unfold Rdiv. now rewrite Rmult_1_l.
  - exists (aet_den Sigmoid). split; [reflexivity | apply sigmoid_bounds].
  - exists (aet_den Exp). split; [reflexivity|]. intros x. apply exp_pos.
Qed.

End Properties.

(** * Further properties *)

Section FurtherProperties.

Context {H : Host}.

Ltac unfold_m :=
  unfold bind, ret, raise, lift_res, get_obj, alloc, put_obj, host_read,
    host_step, isinstance_numeric in *.

(** ** What construction leaves alone *)

Lemma insert_behind (h0 l : list object) a o :
  length h0 <= a -> exists l', <[a:=o]> (h0 ++ l) = h0 ++ l'.
Proof.
  intros Hle. exists (<[a - length h0:=o]> l).
  replace a with (length h0 + (a - length h0)) at 1 by lia.
  apply insert_app_r.
Qed.

Lemma setattr_behind h0 l a c attrs k v st r st' :
  heap st = h0 ++ l -> length h0 <= a ->
  heap st !! a = Some (OInst c attrs) ->
  reserved_attr k = false ->
  setattr (VRef a) k v st = (r, st') ->
  behind h0 st st' /\ heap st' !! a = Some (OInst c (dict_set attrs k v)).
Proof.
  intros Hh Hle Ha Hk. rewrite (setattr_inst a c attrs k v st Ha Hk).
  intros [= _ <-]. split.
  - split; [reflexivity|]. cbn [heap]. rewrite Hh. now apply insert_behind.
  - cbn [heap]. apply list_lookup_insert_eq. now apply lookup_lt_Some in Ha.
Qed.

Lemma update_behind h0 l a val st r st' :
  heap st = h0 ++ l -> length h0 <= a ->
  update (VRef a) val st = (r, st') -> behind h0 st st'.
Proof.
  intros Hh Hle. unfold update. unfold_m.
  assert (Hsame : behind h0 st st) by (split; [reflexivity | now exists l]).
  assert (Hput : forall d',
             behind h0 st (mkState (<[a:=ODict d']> (heap st)) (host st))).
  { intros d'. split; [reflexivity|]. cbn [heap]. rewrite Hh.
    now apply insert_behind. }
  destruct (heap st !! a) as [[d|xs|c attrs|c b]|];
    try (intros [= _ <-]; exact Hsame).
  destruct val; try (intros [= _ <-]; exact Hsame);
    try (destruct (pairs_of _) as [d2|e]; intros [= _ <-];
         [apply Hput | exact Hsame]).
  - destruct s; intros [= _ <-]; exact Hsame.
  - destruct (heap st !! a0) as [[d2|[|x xs]|c attrs|c b]|];
      try (intros [= _ <-]; exact Hsame).
    intros [= _ <-]. apply Hput.
Qed.

(** [update] writes to a dictionary, never to an instance. *)
Lemma update_keeps_inst recv val st r st' a c attrs :
  heap st !! a = Some (OInst c attrs) ->
  update recv val st = (r, st') ->
  heap st' !! a = Some (OInst c attrs).
Proof.
  intros Ha. unfold update. unfold_m.
  destruct recv as [| | | | | | | | | | |u]; try (intros [= _ <-]; exact Ha).
  destruct (heap st !! u) as [[d|xs|c' attrs'|c' b]|] eqn:Hu;
    try (intros [= _ <-]; exact Ha).
  assert (Hne : u <> a) by (intros ->; congruence).
  assert (Hput : forall d',
             heap (mkState (<[u:=ODict d']> (heap st)) (host st)) !! a =
             Some (OInst c attrs)).
  { intros d'. cbn [heap]. now rewrite list_lookup_insert_ne. }
  destruct val; try (intros [= _ <-]; exact Ha);
    try (destruct (pairs_of _) as [d2|e]; intros [= _ <-];
         [apply Hput | exact Ha]).
  - destruct s; intros [= _ <-]; exact Ha.
  - destruct (heap st !! a0) as [[d2|[|x xs]|c1 attrs1|c1 b]|];
      try (intros [= _ <-]; exact Ha).
    intros [= _ <-]. apply Hput.
Qed.

(** The copy is a new object, or the value itself when it is no object;
    the objects there were are kept. *)
Lemma copy_behind h0 l p st r st' :
  heap st = h0 ++ l ->
  copy p st = (r, st') ->
  behind h0 st st' /\
  preserves (heap st) (heap st') /\
  match r with
  | Ok c => (exists x, c = VRef x /\ length h0 <= x) \/ (forall x, c <> VRef x)
  | Raise _ => True
  end.
Proof.
  intros Hh.
  assert (Hsame : behind h0 st st) by (split; [reflexivity | now exists l]).
  assert (Hnew : forall o,
             behind h0 st (mkState (heap st ++ [o]) (host st)) /\
             preserves (heap st) (heap st ++ [o]) /\
             ((exists x, VRef (length (heap st)) = VRef x /\ length h0 <= x) \/
              (forall x, VRef (length (heap st)) <> VRef x))).
  { intros o. split; [|split].
    - split; [reflexivity|]. cbn [heap]. rewrite Hh. exists (l ++ [o]).
      now rewrite app_assoc.
    - apply preserves_app.
    - left. exists (length (heap st)). split; [reflexivity|].
      rewrite Hh, length_app. lia. }
  unfold copy. destruct p;
    try (unfold ret; intros [= <- <-];
         split; [exact Hsame | split; [apply preserves_refl | right; discriminate]]).
  unfold_m.
  destruct (heap st !! a) as [[d|xs|c attrs|c b]|];
    try (intros [= <- <-]; apply Hnew);
    try (intros [= <- <-]; split; [exact Hsame | split; [apply preserves_refl | exact I]]).
  destruct (heap st !! b) as [[d|xs|c' attrs|c' b']|];
    try (intros [= <- <-]; apply Hnew);
    try (intros [= <- <-];
         split; [exact Hsame | split; [apply preserves_refl | exact I]]).
Qed.

(** One keyword that is not reserved: the instance stays an instance with
    a dictionary of its own, and nothing in front of it is written to. *)
Lemma override_behind h0 l a c attrs kv st r st' :
  heap st = h0 ++ l -> length h0 <= a ->
  heap st !! a = Some (OInst c attrs) ->
  reserved_attr (fst kv) = false ->
  override (VRef a) kv st = (r, st') ->
  behind h0 st st' /\ exists attrs', heap st' !! a = Some (OInst c attrs').
Proof.
  intros Hh Hle Ha Hk. destruct kv as [key val]. cbn [fst] in Hk.
  unfold override.
  destruct (String.eqb key "priors").
  2:{ intros Hs.
      destruct (setattr_behind h0 l a c attrs key val st r st' Hh Hle Ha Hk Hs)
        as [Hb Hi].
      split; [exact Hb | eauto]. }
  assert (Hsame : behind h0 st st) by (split; [reflexivity | now exists l]).
  unfold bind at 1.
  destruct (getattr (VRef a) "priors" st) as [[p|e] s] eqn:Hg;
    apply getattr_pure in Hg; subst s;
    [|intros [= _ <-]; split; [exact Hsame | eauto]].
  unfold bind at 1.
  destruct (copy p st) as [[cv|e] s1] eqn:Hc;
    destruct (copy_behind h0 l _ _ _ _ Hh Hc) as [[Hh1 [l1 Hl1]] [Hkeep Hkind]];
    pose proof (Hkeep _ _ Ha) as Ha1;
    [|intros [= _ <-]; split; [split; [exact Hh1 | now exists l1] | eauto]].
  unfold bind at 1.
  rewrite (setattr_inst a c attrs "priors" cv s1 Ha1 eq_refl).
  set (s2 := mkState _ _).
  assert (Ha2 : heap s2 !! a = Some (OInst c (dict_set attrs "priors" cv))).
  { subst s2. cbn [heap]. apply list_lookup_insert_eq.
    now apply lookup_lt_Some in Ha1. }
  assert (Hl2 : exists l2, heap s2 = h0 ++ l2).
  { subst s2. cbn [heap]. rewrite Hl1. now apply insert_behind. }
  destruct Hl2 as [l2 Hl2].
  assert (Hh2 : host s2 = host st) by (subst s2; exact Hh1).
  unfold bind at 1. rewrite (getattr_inst _ _ _ _ _ Ha2), dict_get_set_eq.
  intros Hu. split; [|exists (dict_set attrs "priors" cv);
                      exact (update_keeps_inst _ _ _ _ _ _ _ _ Ha2 Hu)].
  destruct Hkind as [(x & -> & Hx) | Hnoref].
  - destruct (update_behind h0 l2 _ _ _ _ _ Hl2 Hx Hu) as [Hh3 Hl3].
    split; [congruence | exact Hl3].
  - assert (Hraise : update cv val s2 = (Raise AttributeError, s2)).
    { destruct cv; try reflexivity. now destruct (Hnoref a0). }
    rewrite Hraise in Hu. injection Hu as _ <-.
    split; [exact Hh2 | now exists l2].
Qed.

Lemma init_behind h0 a c kwargs :
  length h0 <= a ->
  plain_keywords kwargs = true ->
  forall l attrs st r st',
    heap st = h0 ++ l ->
    heap st !! a = Some (OInst c attrs) ->
    for_each kwargs (override (VRef a)) st = (r, st') -> behind h0 st st'.
Proof.
  intros Hle. induction kwargs as [|[k v] kwargs IH];
    intros Hp l attrs st r st' Hh Ha.
  - simpl. unfold ret. intros [= _ <-]. split; [reflexivity | now exists l].
  - apply plain_keywords_cons in Hp. destruct Hp as (_ & Hk & Hp).
    rewrite for_each_cons. unfold bind.
    destruct (override (VRef a) (k, v) st) as [[u|e] s1] eqn:Ho;
      destruct (override_behind h0 l a c attrs (k, v) _ _ _ Hh Hle Ha Hk Ho)
        as [[Hh1 [l1 Hl1]] [attrs1 Ha1]].
    + intros Hrest. destruct (IH Hp _ _ _ _ _ Hl1 Ha1 Hrest) as [Hh2 Hl2].
      split; [congruence | exact Hl2].
    + intros [= _ <-]. split; [exact Hh1 | now exists l1].
Qed.

Lemma construct_behind cls kwargs st r st' :
  plain_keywords kwargs = true ->
  construct cls kwargs st = (r, st') -> behind (heap st) st st'.
Proof.
  intros Hp. unfold construct, __init__. unfold bind at 1. unfold alloc at 1.
  rewrite (plain_keywords_no_self kwargs Hp).
  unfold bind at 1.
  destruct (for_each kwargs _ _) as [[u|e] s1] eqn:Hrun;
    apply (init_behind (heap st) (length (heap st)) cls kwargs
             (Nat.le_refl _) Hp [OInst cls []] []) in Hrun;
    try reflexivity; try (cbn [heap]; apply lookup_snoc_new);
    unfold ret; intros [= _ <-]; exact Hrun.
Qed.

(** X1. Whatever the class and the keywords, other than the names Python
    reserves ([self], [__class__], [__dict__], [__weakref__]), and whether
    it returns or raises, construction leaves the host state and every
    object that existed before as they were: nothing is registered and no
    class-level default is written to. *)
Theorem construct_leaves_the_rest cls kwargs st :
  plain_keywords kwargs = true ->
  let st' := snd (construct cls kwargs st) in
  host st' = host st /\ preserves (heap st) (heap st').
Proof.
  intros Hp.
  destruct (construct cls kwargs st) as [r st'] eqn:Hc.
  apply construct_behind in Hc; [|exact Hp]. destruct Hc as [Hh [l Hl]].
  cbn [snd]. split; [exact Hh | rewrite Hl; apply preserves_app].
Qed.

(** ** Instances and the class-level priors *)

(** X2. Without the keyword ["priors"], and with keywords that Python
    does not reserve, an instance gets no priors of its own: [self.priors]
    is the class attribute itself.  Two instances built this way read the
    same dictionary, and an entry stored through it shows in the class
    dictionary, which every such instance reads. *)
Theorem plain_instances_share_the_class_priors cls kw1 kw2 a0 d st :
  "priors" ∉ dict_keys kw1 ->
  "priors" ∉ dict_keys kw2 ->
  plain_keywords kw1 = true ->
  plain_keywords kw2 = true ->
  class_lookup cls "priors" = Some (VRef a0) ->
  heap st !! a0 = Some (ODict d) ->
  let a := length (heap st) in
  exists st1 st2,
    construct cls kw1 st = (Ok (VRef a), st1) /\
    construct cls kw2 st1 = (Ok (VRef (S a)), st2) /\
    length (heap st2) = S (S a) /\
    getattr (VRef a) "priors" st2 = (Ok (VRef a0), st2) /\
    getattr (VRef (S a)) "priors" st2 = (Ok (VRef a0), st2) /\
    forall k x,
      let st3 := snd (setitem (VRef a0) k x st2) in
      getattr (VRef a) "priors" st3 = (Ok (VRef a0), st3) /\
      getattr (VRef (S a)) "priors" st3 = (Ok (VRef a0), st3) /\
      heap st3 !! a0 = Some (ODict (dict_set d k x)).
Proof.
  intros Hk1 Hk2 Hp1 Hp2 Hcls Hd a.
  set (st1 := mkState (heap st ++ [OInst cls (dict_update [] kw1)]) (host st)).
  set (st2 := mkState (heap st1 ++ [OInst cls (dict_update [] kw2)]) (host st)).
  assert (Hlen1 : length (heap st1) = S a)
    by (cbn [heap st1]; rewrite length_app; simpl; lia).
  assert (Hi1 : heap st2 !! a = Some (OInst cls (dict_update [] kw1))).
  { cbn [heap st2 st1]. apply lookup_app_l_Some, lookup_snoc_new. }
  assert (Hi2 : heap st2 !! S a = Some (OInst cls (dict_update [] kw2))).
  { cbn [heap st2]. rewrite <- Hlen1. apply lookup_snoc_new. }
  assert (Hlt : a0 < a) by now apply lookup_lt_Some in Hd.
  assert (Hd2 : heap st2 !! a0 = Some (ODict d)).
  { cbn [heap st2 st1]. now do 2 apply lookup_app_l_Some. }
  assert (Hg1 : getattr (VRef a) "priors" st2 = (Ok (VRef a0), st2)).
  { rewrite (getattr_inst _ _ _ _ _ Hi1).
    now rewrite dict_get_update_other, Hcls by exact Hk1. }
  assert (Hg2 : getattr (VRef (S a)) "priors" st2 = (Ok (VRef a0), st2)).
  { rewrite (getattr_inst _ _ _ _ _ Hi2).
    now rewrite dict_get_update_other, Hcls by exact Hk2. }
  exists st1, st2. split; [now apply construct_plain|]. split.
  { rewrite (construct_plain cls kw2 st1 Hk2 Hp2). now rewrite Hlen1. }
  split; [cbn [heap st2]; rewrite length_app, Hlen1; simpl; lia|].
  split; [exact Hg1|]. split; [exact Hg2|].
  intros k x. rewrite (setitem_dict _ _ _ _ _ Hd2). cbn [snd].
  set (st3 := mkState _ _).
  assert (Hlt2 : a0 < length (heap st2)) by now apply lookup_lt_Some in Hd2.
  split; [|split].
  - rewrite (getattr_inst a cls (dict_update [] kw1)).
    + now rewrite dict_get_update_other, Hcls by exact Hk1.
    + cbn [heap st3]. rewrite list_lookup_insert_ne by lia. exact Hi1.
  - rewrite (getattr_inst (S a) cls (dict_update [] kw2)).
    + now rewrite dict_get_update_other, Hcls by exact Hk2.
    + cbn [heap st3]. rewrite list_lookup_insert_ne by lia. exact Hi2.
  - cbn [heap st3]. now apply list_lookup_insert_eq.
Qed.

(** The keyword ["priors"] up to the call of [update]. *)
Lemma override_priors_step a c attrs a0 d0 val st :
  heap st !! a = Some (OInst c attrs) ->
  dict_get attrs "priors" = None ->
  class_lookup c "priors" = Some (VRef a0) ->
  heap st !! a0 = Some (ODict d0) ->
  override (VRef a) ("priors", val) st =
  update (VRef (length (heap st))) val
    (mkState (<[a:=OInst c (dict_set attrs "priors" (VRef (length (heap st))))]>
                (heap st) ++ [ODict d0])
             (host st)).
Proof.
  intros Ha Hattrs Hcls Ha0.
  assert (Hlt : a < length (heap st)) by now apply lookup_lt_Some in Ha.
  unfold override. rewrite String.eqb_refl.
  unfold bind at 1. rewrite (getattr_inst a c attrs), Hattrs, Hcls by exact Ha.
  unfold bind at 1. unfold copy. unfold bind at 1. unfold get_obj at 1.
  rewrite Ha0. cbv iota. unfold bind at 1. unfold alloc, ret. cbn [heap host].
  unfold bind at 1.
  rewrite (setattr_inst a c attrs "priors" (VRef (length (heap st)))
             (mkState (heap st ++ [ODict d0]) (host st))
             (lookup_app_l_Some _ _ _ _ Ha) eq_refl).
  cbn [heap host]. rewrite insert_app_l by exact Hlt.
  unfold bind at 1.
  rewrite (getattr_inst a c (dict_set attrs "priors" (VRef (length (heap st)))));
    [|cbn [heap]; apply lookup_app_l_Some; now apply list_lookup_insert_eq].
  now rewrite dict_get_set_eq.
Qed.

(** X3. A [priors] keyword whose value is no mapping makes construction
    raise, on a class whose [priors] is a dictionary and with other
    keywords that Python does not reserve: [TypeError] for [None], a
    number, a numpy scalar or an [Identity] instance, [ValueError] for a
    string that is not empty.  The keywords after it are not looked at; the
    host state and the class dictionary are as before. *)
Theorem construct_rejects_priors_that_are_no_mapping cls kw1 kw2 a0 d0 val st :
  "priors" ∉ dict_keys kw1 ->
  plain_keywords kw1 = true ->
  plain_keywords kw2 = true ->
  class_lookup cls "priors" = Some (VRef a0) ->
  heap st !! a0 = Some (ODict d0) ->
  let run := construct cls (kw1 ++ ("priors", val) :: kw2) st in
  ((val = VNone \/ (exists n, val = VNum n) \/ (exists n, val = VGeneric n) \/
    val = VIdentity) -> fst run = Raise TypeError) /\
  ((exists s, val = VStr s /\ s <> "") -> fst run = Raise ValueError) /\
  host (snd run) = host st /\
  heap (snd run) !! a0 = Some (ODict d0).
Proof.
  intros Hk1 Hp1 Hp2 Hcls Ha0 run.
  assert (Hp : plain_keywords (kw1 ++ ("priors", val) :: kw2) = true).
  { apply plain_keywords_app; [exact Hp1|].
    now apply (plain_keywords_app [("priors", val)] kw2). }
  assert (Hframe : behind (heap st) st (snd run)).
  { apply (construct_behind cls (kw1 ++ ("priors", val) :: kw2) st (fst run));
      [exact Hp|].
    subst run. now destruct (construct _ _ st). }
  destruct Hframe as [Hhost [l Hl]].
  assert (Hpres : preserves (heap st) (heap (snd run)))
    by (rewrite Hl; apply preserves_app).
  assert (Hrun : run =
    let (r, s) :=
      update (VRef (S (length (heap st)))) val
        (mkState (heap st ++
                    [OInst cls (dict_set (dict_update [] kw1) "priors"
                                  (VRef (S (length (heap st)))));
                     ODict d0]) (host st)) in
    match r with
    | Ok _ => (let (r', s') := for_each kw2 (override (VRef (length (heap st)))) s in
               match r' with
               | Ok _ => (Ok (VRef (length (heap st))), s')
               | Raise e => (Raise e, s')
               end)
    | Raise e => (Raise e, s)
    end).
  { subst run. unfold construct, __init__. unfold bind at 1. unfold alloc at 1.
    rewrite (plain_keywords_no_self _ Hp).
    unfold bind at 1. rewrite for_each_app. unfold bind at 1.
    rewrite (init_plain _ cls kw1 Hk1 Hp1 [])
      by (cbn [heap]; apply lookup_snoc_new).
    cbn [heap host]. rewrite insert_snoc.
    rewrite for_each_cons. unfold bind at 1.
    rewrite (override_priors_step _ cls (dict_update [] kw1) a0 d0);
      cbn [heap host].
    - rewrite insert_snoc, <- app_assoc. simpl app.
      rewrite length_app. simpl length.
      replace (length (heap st) + 1) with (S (length (heap st))) by lia.
      destruct (update _ val _) as [[u|e] s]; [|reflexivity].
      destruct (for_each kw2 _ s) as [[u'|e'] s']; reflexivity.
    - apply lookup_snoc_new.
    - now rewrite dict_get_update_other.
    - exact Hcls.
    - now apply lookup_app_l_Some. }
  assert (Hcopy : forall o, (heap st ++ [o; ODict d0]) !! S (length (heap st))
                            = Some (ODict d0))
    by (intros o; apply lookup_app_second).
  split; [|split; [|split; [exact Hhost | now apply Hpres]]].
  - intros Hval. rewrite Hrun. unfold update, bind, get_obj. cbn [heap].
    rewrite Hcopy.
    destruct Hval as [-> | [[n ->] | [[n ->] | ->]]]; reflexivity.
  - intros (s & -> & Hs). rewrite Hrun. unfold update, bind, get_obj. cbn [heap].
    rewrite Hcopy. destruct s; [congruence | reflexivity].
Qed.

(** ** The order of the merged priors *)

Lemma filter_keys_set (d : dict) k v ks :
  k ∉ ks ->
  List.filter (fun k' => negb (dict_mem (dict_set d k v) k')) ks =
  List.filter (fun k' => negb (dict_mem d k')) ks.
Proof.
  intros Hk. apply List.filter_ext_in. intros k' Hin.
  apply list_elem_of_In in Hin.
  rewrite dict_mem_set_other; [reflexivity|]. intros ->. contradiction.
Qed.

Lemma dict_keys_update (d d2 : dict) :
  NoDup (dict_keys d2) ->
  dict_keys (dict_update d d2) =
  dict_keys d ++ List.filter (fun k => negb (dict_mem d k)) (dict_keys d2).
Proof.
  revert d. induction d2 as [|[k v] d2 IH]; intros d Hnd.
  - simpl. now rewrite app_nil_r.
  - rewrite dict_keys_cons, NoDup_cons in Hnd. destruct Hnd as [Hk Hnd].
    rewrite dict_update_cons, IH by exact Hnd.
    rewrite filter_keys_set by exact Hk.
    rewrite dict_keys_cons. simpl List.filter. unfold dict_mem at 2.
    destruct (dict_get d k) eqn:E; simpl negb; cbv iota.
    + rewrite dict_keys_set_old; [reflexivity|].
      apply dict_get_Some_elem_of in E.
      now apply (list_elem_of_fmap_2 fst) in E.
    + apply dict_get_None in E. rewrite dict_set_new by exact E.
      rewrite dict_keys_app, <- app_assoc. reflexivity.
Qed.

(** X4. After [cls(priors=...)] the instance's priors list the keys of the
    class default first, in their order, an overridden key keeping its
    place, and then the new keys in the order they were supplied; this is
    the order in which [_get_priors] goes through them. *)
Theorem merged_priors_keep_the_default_order cls a0 d0 b d2 st :
  class_lookup cls "priors" = Some (VRef a0) ->
  heap st !! a0 = Some (ODict d0) ->
  heap st !! b = Some (ODict d2) ->
  NoDup (dict_keys d0) ->
  NoDup (dict_keys d2) ->
  let a := length (heap st) in
  let keys := dict_keys d0 ++
              List.filter (fun k => negb (dict_mem d0 k)) (dict_keys d2) in
  exists st' di,
    construct cls [("priors", VRef b)] st = (Ok (VRef a), st') /\
    (p <- getattr (VRef a) "priors" ;; items p) st' = (Ok di, st') /\
    dict_keys di = keys /\
    forall model name r st'',
      _get_priors (VRef a) model name st' = (Ok r, st'') ->
      exists d', heap st'' !! length (heap st') = Some (ODict d') /\
                 dict_keys d' = keys.
Proof.
  intros Hcls Ha0 Hb Hnd0 Hnd2 a keys.
  pose proof (construct_priors cls [] [] a0 d0 b d2 st) as Hrun.
  cbn zeta in Hrun. simpl app in Hrun. fold a in Hrun.
  change (dict_update [] [("priors", VRef (S a))])
    with [("priors", VRef (S a))] in Hrun.
  set (st' := mkState (heap st ++ [OInst cls [("priors", VRef (S a))];
                                   ODict (dict_update d0 d2)]) (host st)) in *.
  assert (Hg : getattr (VRef a) "priors" st' = (Ok (VRef (S a)), st')).
  { now rewrite (getattr_inst a cls [("priors", VRef (S a))])
      by apply lookup_app_first. }
  assert (Hdi : heap st' !! S a = Some (ODict (dict_update d0 d2)))
    by apply lookup_app_second.
  exists st', (dict_update d0 d2).
  split; [apply Hrun; auto; apply not_elem_of_nil|]. split; [|split].
  - unfold bind. rewrite Hg. now apply items_dict.
  - now apply dict_keys_update.
  - intros model name r st'' Hp.
    pose proof (get_priors_inv _ _ _ _ _ _ _ _ Hg Hdi Hp)
      as (m & d' & _ & Hres & _ & Hh).
    assert (Hndm : NoDup (dict_keys (dict_update d0 d2)))
      by now apply dict_update_NoDup.
    rewrite (resolved_update_nil _ _ _ _ _ _ _ Hres Hndm) in Hh.
    exists d'. split; [rewrite Hh; apply lookup_snoc_new|].
    rewrite (resolved_keys _ _ _ _ _ _ _ Hres). now apply dict_keys_update.
Qed.

(** ** Families whose priors are [None] *)

Lemma dict_keys_split (kw : dict) k :
  k ∈ dict_keys kw ->
  exists kw1 v kw2, kw = kw1 ++ (k, v) :: kw2 /\ k ∉ dict_keys kw1.
Proof.
  induction kw as [|[k' v'] kw IH].
  - intros Hin. now apply elem_of_nil in Hin.
  - rewrite dict_keys_cons, elem_of_cons.
    destruct (decide (k = k')) as [->|Hne].
    + intros _. exists [], v', kw. split; [reflexivity | apply not_elem_of_nil].
    + intros [Heq|Hin]; [contradiction|].
      destruct (IH Hin) as (kw1 & v & kw2 & -> & Hk).
      exists ((k', v') :: kw1), v, kw2. split; [reflexivity|].
      rewrite dict_keys_cons. apply not_elem_of_cons. now split.
Qed.

(** With the keyword ["priors"] anywhere among the keywords. *)
Lemma construct_None_with_priors c kw1 val kw2 st :
  class_lookup c "priors" = Some VNone ->
  "priors" ∉ dict_keys kw1 ->
  plain_keywords (kw1 ++ ("priors", val) :: kw2) = true ->
  fst (construct c (kw1 ++ ("priors", val) :: kw2) st) = Raise AttributeError.
Proof.
  intros Hcls Hk1 Hp. unfold construct, __init__. unfold bind at 1.
  unfold alloc at 1. rewrite (plain_keywords_no_self _ Hp).
  apply plain_keywords_app_inv in Hp. destruct Hp as [Hp1 _].
  unfold bind at 1. rewrite for_each_app. unfold bind at 1.
  rewrite (init_plain _ c kw1 Hk1 Hp1 [])
    by (cbn [heap]; apply lookup_snoc_new).
  cbn [heap host]. rewrite insert_snoc.
  rewrite for_each_cons. unfold bind at 1.
  unfold override. rewrite String.eqb_refl.
  set (attrs := dict_update [] kw1).
  unfold bind at 1.
  rewrite (getattr_inst _ c attrs) by (cbn [heap]; apply lookup_snoc_new).
  subst attrs. rewrite dict_get_update_other by exact Hk1.
  simpl dict_get. rewrite Hcls.
  unfold bind at 1. unfold copy, ret.
  unfold bind at 1.
  rewrite (setattr_inst _ c (dict_update [] kw1) "priors" VNone
             (mkState (heap st ++ [OInst c (dict_update [] kw1)]) (host st))
             (lookup_snoc_new _ _) eq_refl).
  cbn [heap host]. rewrite insert_snoc.
  unfold bind at 1.
  rewrite (getattr_inst _ c (dict_set (dict_update [] kw1) "priors" VNone))
    by (cbn [heap]; apply lookup_snoc_new).
  now rewrite dict_get_set_eq.
Qed.

(** X5. No choice of keyword arguments, among those that Python does not
    reserve and that do not hide a method, makes [StudentT], [Normal],
    [Poisson] or [NegativeBinomial] usable: with a [priors] keyword the
    construction raises [AttributeError], without one it returns an
    instance on which [_get_priors] and [create_likelihood] raise; in no
    case is anything registered. *)
Theorem families_without_priors_are_unusable c kwargs st :
  c ∈ [StudentT; Normal; Poisson; NegativeBinomial] ->
  plain_keywords kwargs = true ->
  keeps_methods kwargs = true ->
  match construct c kwargs st with
  | (Raise e, st1) =>
      ("priors" ∈ dict_keys kwargs) /\ e = AttributeError /\ host st1 = host st
  | (Ok inst, st1) =>
      ("priors" ∉ dict_keys kwargs) /\ host st1 = host st /\
      forall name y_est y_data model,
        (exists e st2,
           _get_priors inst model name st1 = (Raise e, st2) /\
           host st2 = host st) /\
        (exists e st2,
           create_likelihood inst name y_est y_data model st1 = (Raise e, st2) /\
           host st2 = host st)
  end.
Proof.
  intros Hc Hplain _.
  assert (Hcls : class_lookup c "priors" = Some VNone).
  { repeat (apply elem_of_cons in Hc; destruct Hc as [->|Hc]; [reflexivity|]).
    now apply elem_of_nil in Hc. }
  clear Hc.
  destruct (decide ("priors" ∈ dict_keys kwargs)) as [Hin|Hnot].
  - destruct (dict_keys_split _ _ Hin) as (kw1 & v & kw2 & -> & Hk1).
    pose proof (construct_None_with_priors c kw1 v kw2 st Hcls Hk1 Hplain)
      as Hfst.
    destruct (construct c _ st) as [r st1] eqn:Hrun.
    apply construct_behind in Hrun; [|exact Hplain]. destruct Hrun as [Hh _].
    cbn [fst] in Hfst. subst r. auto.
  - rewrite (construct_plain c kwargs st Hnot Hplain).
    split; [exact Hnot|]. split; [reflexivity|].
    set (st1 := mkState _ _).
    assert (Hg : getattr (VRef (length (heap st))) "priors" st1 = (Ok VNone, st1)).
    { rewrite (getattr_inst _ c (dict_update [] kwargs)) by apply lookup_snoc_new.
      now rewrite dict_get_update_other, Hcls by exact Hnot. }
    intros name y_est y_data model.
    destruct (get_priors_None _ model name _ Hg) as (e & st2 & Hp & Hh & _).
    split; exists e, st2; split; auto.
    now apply create_likelihood_priors_error.
Qed.

(** ** When a registration raises *)

Lemma resolved_all_constants model pre h (d : dict) hs :
  (forall k v, (k, v) ∈ d -> is_numeric h v = true) ->
  resolved model pre h d hs d hs.
Proof.
  induction d as [|[k v] d IH]; intros Hall; [constructor|].
  apply resolved_const.
  - apply (Hall k v). apply elem_of_cons. now left.
  - apply IH. intros k' v' Hin. apply (Hall k' v'). apply elem_of_cons. now right.
Qed.

(** X6. Registrations are not undone.  When the entries before [k] have
    been resolved and the registration of the prior under [k] raises,
    [_get_priors] and [create_likelihood] raise that exception; the host
    state is the one the earlier registrations and the failed one left,
    the entries after [k] have not been looked at, and neither the link
    nor the likelihood has been called. *)
Theorem failed_registration_keeps_the_earlier_ones
    self model name y_est y_data st ap d1 k v d2 m d1' hs1 e hs2 :
  getattr self "priors" st = (Ok (VRef ap), st) ->
  heap st !! ap = Some (ODict (d1 ++ (k, v) :: d2)) ->
  modelcontext model (host st) = Ok m ->
  resolved m (with_underscore name) (heap st) d1 (host st) d1' hs1 ->
  is_numeric (heap st) v = false ->
  register_rv m v (with_underscore name +:+ k) hs1 = (Raise e, hs2) ->
  let st' := mkState (heap st ++ [ODict (dict_update [] d1')]) hs2 in
  _get_priors self model name st = (Raise e, st') /\
  create_likelihood self name y_est y_data model st = (Raise e, st').
Proof.
  intros Hg Hd Hm Hres Hnum Hreg st'.
  assert (Hp : _get_priors self model name st = (Raise e, st')).
  { rewrite get_priors_unfold, Hm.
    rewrite (getattr_with_new_dict _ _ _ _ Hg).
    rewrite (items_dict ap _) by (apply lookup_app_l_Some, Hd).
    rewrite for_each_app. unfold bind at 1. unfold with_new_dict.
    rewrite (resolve_loop_total _ _ _ _ _ _ _ Hres).
    rewrite for_each_cons. unfold bind at 1.
    now rewrite resolve_entry_run, Hnum, Hreg. }
  split; [exact Hp | now apply create_likelihood_priors_error].
Qed.

(** ** When the link, the parent or the likelihood is at fault *)

(** An instance answers [getattr] the same way as long as it is there. *)
Lemma getattr_instance_stable a c attrs k st st2 :
  heap st !! a = Some (OInst c attrs) ->
  preserves (heap st) (heap st2) ->
  getattr (VRef a) k st2 = (fst (getattr (VRef a) k st), st2).
Proof.
  intros Ha Hp.
  rewrite (getattr_inst a c attrs k st Ha).
  now rewrite (getattr_inst a c attrs k st2 (Hp _ _ Ha)).
Qed.

(** X7. [create_likelihood] resolves the priors first.  If afterwards the
    link cannot be called (it is [None] on the base class), or [parent] or
    [likelihood] is missing, the exception of that step comes out and the
    priors stay registered: the host state is the one [_get_priors], and
    the link if it was called, left. *)
Theorem create_likelihood_fails_after_registering
    a c attrs name y_est y_data model st r st1 :
  heap st !! a = Some (OInst c attrs) ->
  _get_priors (VRef a) model name st = (Ok r, st1) ->
  let run := create_likelihood (VRef a) name y_est y_data model st in
  (getattr (VRef a) "link" st = (Ok VNone, st) ->
   run = (Raise TypeError, st1)) /\
  (forall l e st2,
     getattr (VRef a) "link" st = (Ok l, st) ->
     call_kw l [y_est] [] st1 = (Raise e, st2) ->
     run = (Raise e, st2)) /\
  (forall l lv st2 e,
     getattr (VRef a) "link" st = (Ok l, st) ->
     call_kw l [y_est] [] st1 = (Ok lv, st2) ->
     getattr (VRef a) "parent" st = (Raise e, st) ->
     run = (Raise e, st2)) /\
  (forall l lv st2 p e,
     getattr (VRef a) "link" st = (Ok l, st) ->
     call_kw l [y_est] [] st1 = (Ok lv, st2) ->
     getattr (VRef a) "parent" st = (Ok (VStr p), st) ->
     getattr (VRef a) "likelihood" st = (Raise e, st) ->
     exists st3, run = (Raise e, st3) /\ host st3 = host st2).
Proof.
  intros Ha Hp run.
  pose proof (get_priors_heap _ _ _ _ _ _ Hp) as [-> [acc Hh1]].
  assert (Hp1 : preserves (heap st) (heap st1))
    by (rewrite Hh1; apply preserves_app).
  assert (Hlink : forall l e st2,
            getattr (VRef a) "link" st = (Ok l, st) ->
            call_kw l [y_est] [] st1 = (Raise e, st2) ->
            run = (Raise e, st2)).
  { intros l e st2 Hl Hc. subst run. unfold create_likelihood.
    unfold bind at 1. rewrite Hp. unfold bind at 1.
    rewrite (getattr_preserved _ _ _ _ _ st1 Hl Hp1).
    unfold bind at 1. now rewrite Hc. }
  split; [|split; [exact Hlink|split]].
  - intros Hl. now apply (Hlink VNone).
  - intros l lv st2 e Hl Hc Hpar. subst run. unfold create_likelihood.
    unfold bind at 1. rewrite Hp. unfold bind at 1.
    rewrite (getattr_preserved _ _ _ _ _ st1 Hl Hp1).
    unfold bind at 1. rewrite Hc. unfold bind at 1.
    pose proof (call_kw_heap _ _ _ _ _ _ Hc) as Hh2.
    rewrite (getattr_instance_stable a c attrs "parent" st st2 Ha)
      by now rewrite Hh2.
    now rewrite Hpar.
  - intros l lv st2 p e Hl Hc Hpar Hlik. subst run.
    exists (mkState (heap st ++ [ODict (dict_set acc p lv)]) (host st2)).
    split; [|reflexivity]. unfold create_likelihood.
    unfold bind at 1. rewrite Hp. unfold bind at 1.
    rewrite (getattr_preserved _ _ _ _ _ st1 Hl Hp1).
    unfold bind at 1. rewrite Hc. unfold bind at 1.
    pose proof (call_kw_heap _ _ _ _ _ _ Hc) as Hh2.
    assert (Hp2 : preserves (heap st) (heap st2)) by now rewrite Hh2.
    rewrite (getattr_preserved _ _ _ _ _ st2 Hpar Hp2).
    unfold bind at 1.
    rewrite (setitem_dict _ acc) by (rewrite Hh2, Hh1; apply lookup_snoc_new).
    rewrite Hh2, Hh1, insert_snoc.
    unfold call_likelihood. unfold bind at 1.
    rewrite (getattr_instance_stable a c attrs "likelihood" st _ Ha)
      by apply preserves_app.
    rewrite Hlik. reflexivity.
Qed.

(** ** Keyword arguments the likelihood cannot receive *)

Lemma dict_mem_key (d : dict) k : k ∈ dict_keys d -> dict_mem d k = true.
Proof.
  intros Hin. unfold dict_mem. destruct (dict_get d k) eqn:E; [reflexivity|].
  apply dict_get_None in E. contradiction.
Qed.

(** X8. [observed] is passed to the likelihood by keyword next to the
    unpacked mapping, so a prior named ["observed"], or ["observed"] as the
    parent, makes [create_likelihood] raise [TypeError] once the priors are
    registered and the link is applied; the likelihood is not called. *)
Theorem observed_cannot_be_a_parameter
    self name y_est y_data model st ap d r st1 l lv st2 p lik :
  getattr self "priors" st = (Ok (VRef ap), st) ->
  heap st !! ap = Some (ODict d) ->
  NoDup (dict_keys d) ->
  _get_priors self model name st = (Ok r, st1) ->
  getattr self "link" st = (Ok l, st) ->
  call_kw l [y_est] [] st1 = (Ok lv, st2) ->
  getattr self "parent" st = (Ok (VStr p), st) ->
  getattr self "likelihood" st = (Ok lik, st) ->
  "observed" ∈ dict_keys d \/ p = "observed" ->
  exists st3,
    create_likelihood self name y_est y_data model st = (Raise TypeError, st3) /\
    host st3 = host st2.
Proof.
  intros Hg Hd Hnd Hp Hl Hc Hpar Hlik Hobs.
  pose proof (get_priors_inv _ _ _ _ _ _ _ _ Hg Hd Hp)
    as (m & d' & _ & Hres & _ & Hh1).
  rewrite (resolved_update_nil _ _ _ _ _ _ _ Hres Hnd) in Hh1.
  destruct (create_likelihood_run _ _ _ y_data _ _ _ _ _ _ _ _ _ Hp Hl Hc Hpar Hlik)
    as (acc & _ & Hacc & Hrun).
  rewrite Hh1 in Hacc. apply app_inv_head in Hacc. inversion Hacc; subst acc.
  cbn zeta in Hrun.
  assert (Hmem : dict_mem (dict_set d' p lv) "observed" = true).
  { destruct (decide (p = "observed")) as [->|Hne].
    - unfold dict_mem. now rewrite dict_get_set_eq.
    - rewrite dict_mem_set_other by exact Hne. apply dict_mem_key.
      rewrite (resolved_keys _ _ _ _ _ _ _ Hres). now destruct Hobs. }
  rewrite Hmem in Hrun. eexists. split; [exact Hrun | reflexivity].
Qed.

(** X9. The parent has to be a string: with any other value under
    [parent], and a [likelihood] to look up, [create_likelihood] raises
    [TypeError] after the priors are registered and the link is applied,
    and the likelihood is not called. *)
Theorem parent_must_be_a_string
    self name y_est y_data model st r st1 l lv st2 v lik :
  _get_priors self model name st = (Ok r, st1) ->
  getattr self "link" st = (Ok l, st) ->
  call_kw l [y_est] [] st1 = (Ok lv, st2) ->
  getattr self "parent" st = (Ok v, st) ->
  (forall p, v <> VStr p) ->
  getattr self "likelihood" st = (Ok lik, st) ->
  create_likelihood self name y_est y_data model st = (Raise TypeError, st2).
Proof.
  intros Hp Hl Hc Hpar Hv Hlik.
  pose proof (get_priors_preserves _ _ _ _ _ _ Hp) as Hp1.
  pose proof (call_kw_heap _ _ _ _ _ _ Hc) as Hh2.
  assert (Hp2 : preserves (heap st) (heap st2)) by now rewrite Hh2.
  unfold create_likelihood. unfold bind at 1. rewrite Hp.
  unfold bind at 1. rewrite (getattr_preserved _ _ _ _ _ st1 Hl Hp1).
  unfold bind at 1. rewrite Hc.
  unfold bind at 1. rewrite (getattr_preserved _ _ _ _ _ st2 Hpar Hp2).
  assert (Href : refuse_parent self v st2 = (Raise TypeError, st2)).
  { unfold refuse_parent. destruct (is_hashable (heap st2) v); [|reflexivity].
    unfold bind. now rewrite (getattr_preserved _ _ _ _ _ st2 Hlik Hp2). }
  destruct v; try exact Href. now destruct (Hv s).
Qed.

(** ** Names *)


Lemma append_inj_r (s k1 k2 : string) : s +:+ k1 = s +:+ k2 -> k1 = k2.
Proof.
  induction s as [|c s IH]; [auto|].
  change (String c (s +:+ k1) = String c (s +:+ k2) -> k1 = k2).
  intros [= Heq]. now apply IH.
Qed.

(** X11. Under one name prefix, priors with different keys are registered
    under different names; across prefixes the names can coincide. *)
Theorem names_tell_keys_apart :
  (forall name k1 k2,
     with_underscore name +:+ k1 = with_underscore name +:+ k2 -> k1 = k2) /\
  (exists n1 k1 n2 k2,
     (n1, k1) <> (n2, k2) /\
     with_underscore n1 +:+ k1 = with_underscore n2 +:+ k2).
Proof.
  split.
  - intros name k1 k2. apply append_inj_r.
  - exists "a", "b_c", "a_b", "c". split; [discriminate | reflexivity].
Qed.

(** ** Constant priors *)

(** X12. [create_likelihood] uses its [model] argument for the priors
    only.  When every prior is a constant, two models that both pass the
    context lookup give the same result and the same state: the likelihood
    is built without the model being mentioned. *)
Theorem model_is_used_for_the_priors_only
    self name y_est y_data model1 model2 m1 m2 st ap d :
  getattr self "priors" st = (Ok (VRef ap), st) ->
  heap st !! ap = Some (ODict d) ->
  (forall k v, (k, v) ∈ d -> is_numeric (heap st) v = true) ->
  modelcontext model1 (host st) = Ok m1 ->
  modelcontext model2 (host st) = Ok m2 ->
  create_likelihood self name y_est y_data model1 st =
  create_likelihood self name y_est y_data model2 st.
Proof.
  intros Hg Hd Hall Hm1 Hm2.
  pose proof (get_priors_total self model1 name st ap d m1 d (host st)
                Hg Hd Hm1 (resolved_all_constants _ _ _ _ _ Hall)) as Hp1.
  pose proof (get_priors_total self model2 name st ap d m2 d (host st)
                Hg Hd Hm2 (resolved_all_constants _ _ _ _ _ Hall)) as Hp2.
  unfold create_likelihood, bind. now rewrite Hp1, Hp2.
Qed.

(** ** Constant priors, from start to end *)

Lemma create_likelihood_constants_run
    self name y_est y_data model m st ap d l lv st2 p lik :
  getattr self "priors" st = (Ok (VRef ap), st) ->
  heap st !! ap = Some (ODict d) ->
  NoDup (dict_keys d) ->
  (forall k v, (k, v) ∈ d -> is_numeric (heap st) v = true) ->
  "observed" ∉ dict_keys d ->
  modelcontext model (host st) = Ok m ->
  getattr self "link" st = (Ok l, st) ->
  call_kw l [y_est] [] (mkState (heap st ++ [ODict d]) (host st)) = (Ok lv, st2) ->
  getattr self "parent" st = (Ok (VStr p), st) ->
  p <> "observed" ->
  getattr self "likelihood" st = (Ok lik, st) ->
  create_likelihood self name y_est y_data model st =
  call_kw lik [VStr (with_underscore name +:+ "y")]
    (("observed", y_data) :: dict_set d p lv)
    (mkState (heap st ++ [ODict (dict_set d p lv)]) (host st2)).
Proof.
  intros Hg Hd Hnd Hall Hobs Hm Hl Hc Hpar Hpobs Hlik.
  pose proof (get_priors_total self model name st ap d m d (host st)
                Hg Hd Hm (resolved_all_constants _ _ _ _ _ Hall)) as Hp.
  rewrite (dict_update_fresh [] d Hnd) in Hp. simpl app in Hp.
  destruct (create_likelihood_run _ _ _ y_data _ _ _ _ _ _ _ _ _ Hp Hl Hc Hpar Hlik)
    as (acc & _ & Hacc & Hrun).
  cbn [heap] in Hacc. apply app_inv_head in Hacc. inversion Hacc; subst acc.
  cbn zeta in Hrun. rewrite dict_mem_set_other in Hrun by congruence.
  unfold dict_mem in Hrun.
  now rewrite (proj2 (dict_get_None d "observed") Hobs) in Hrun.
Qed.

(** X15. With constant priors [create_likelihood] comes down to two
    calls.  Once a model context is found, the link is applied to the
    estimate and the likelihood is called with the node name, [observed]
    and the constants with the parent entry set; nothing else reaches the
    host, and the new dictionary is the only change to the store. *)
Theorem create_likelihood_with_constant_priors
    self name y_est y_data model m st ap d l lv st2 p lik :
  getattr self "priors" st = (Ok (VRef ap), st) ->
  heap st !! ap = Some (ODict d) ->
  NoDup (dict_keys d) ->
  (forall k v, (k, v) ∈ d -> is_numeric (heap st) v = true) ->
  "observed" ∉ dict_keys d ->
  modelcontext model (host st) = Ok m ->
  getattr self "link" st = (Ok l, st) ->
  call_kw l [y_est] [] (mkState (heap st ++ [ODict d]) (host st)) = (Ok lv, st2) ->
  getattr self "parent" st = (Ok (VStr p), st) ->
  p <> "observed" ->
  getattr self "likelihood" st = (Ok lik, st) ->
  create_likelihood self name y_est y_data model st =
  call_kw lik [VStr (with_underscore name +:+ "y")]
    (("observed", y_data) :: dict_set d p lv)
    (mkState (heap st ++ [ODict (dict_set d p lv)]) (host st2)).
Proof. apply create_likelihood_constants_run. Qed.

(** X16. What is overridden at construction is what [create_likelihood]
    uses.  For [cls(link=..., parent=..., likelihood=...)] on a class with
    constant priors, with no keyword that Python reserves or that hides a
    method, the call goes to the likelihood given by keyword, with the
    class's constants and the parent given by keyword set to the value of
    the link given by keyword; the class attributes of the same names play
    no part. *)
Theorem overrides_reach_create_likelihood
    cls kwargs l p lik ap d name y_est y_data model m st lv st2 :
  "priors" ∉ dict_keys kwargs ->
  plain_keywords kwargs = true ->
  keeps_methods kwargs = true ->
  NoDup (dict_keys kwargs) ->
  ("link", l) ∈ kwargs ->
  ("parent", VStr p) ∈ kwargs ->
  ("likelihood", lik) ∈ kwargs ->
  class_lookup cls "priors" = Some (VRef ap) ->
  heap st !! ap = Some (ODict d) ->
  NoDup (dict_keys d) ->
  (forall k v, (k, v) ∈ d -> is_numeric (heap st) v = true) ->
  "observed" ∉ dict_keys d ->
  p <> "observed" ->
  modelcontext model (host st) = Ok m ->
  let a := length (heap st) in
  let inst := OInst cls (dict_update [] kwargs) in
  call_kw l [y_est] [] (mkState (heap st ++ [inst; ODict d]) (host st))
    = (Ok lv, st2) ->
  exists st1,
    construct cls kwargs st = (Ok (VRef a), st1) /\
    create_likelihood (VRef a) name y_est y_data model st1 =
    call_kw lik [VStr (with_underscore name +:+ "y")]
      (("observed", y_data) :: dict_set d p lv)
      (mkState (heap st ++ [inst; ODict (dict_set d p lv)]) (host st2)).
Proof.
  intros Hpri Hplain _ Hnd Hl Hp Hlik Hcls Hd Hndd Hall Hobs Hpobs Hm a inst Hc.
  set (st1 := mkState (heap st ++ [inst]) (host st)).
  assert (Ha : heap st1 !! a = Some inst) by apply lookup_snoc_new.
  assert (Hnum : forall k v, (k, v) ∈ d -> is_numeric (heap st1) v = true).
  { intros k v Hin. specialize (Hall k v Hin). destruct v; try discriminate;
      try reflexivity.
    simpl in *. destruct (heap st !! a0) as [o|] eqn:E; [|discriminate].
    cbn [heap st1]. now rewrite (lookup_app_l_Some _ _ _ _ E). }
  exists st1. split; [now apply construct_plain|].
  replace (heap st ++ [inst; ODict (dict_set d p lv)])
    with (heap st1 ++ [ODict (dict_set d p lv)])
    by (cbn [heap st1]; now rewrite <- app_assoc).
  apply (create_likelihood_constants_run
           (VRef a) name y_est y_data model m st1 ap d l lv st2 p lik); auto.
  - rewrite (getattr_inst _ _ _ _ _ Ha).
    now rewrite dict_get_update_other, Hcls by exact Hpri.
  - now apply lookup_app_l_Some.
  - now apply (getattr_constructed a cls kwargs).
  - cbn [heap host st1]. now rewrite <- app_assoc.
  - now apply (getattr_constructed a cls kwargs).
  - now apply (getattr_constructed a cls kwargs).
Qed.

End FurtherProperties.

Section DescribeProperties.

Context {H : Host} {RT : Runtime}.

Ltac unfold_m :=
  unfold bind, ret, raise, lift_res, get_obj, alloc, put_obj, host_read,
    host_step, isinstance_numeric in *.

(** ** [__repr__] *)

Lemma class_of_inst a c attrs st :
  heap st !! a = Some (OInst c attrs) -> class_of (VRef a) st = (Ok c, st).
Proof. intros Ha. unfold class_of. unfold_m. now rewrite Ha. Qed.

Lemma class_of_pure self st r st' : class_of self st = (r, st') -> st' = st.
Proof.
  unfold class_of. destruct self; unfold_m; try (intros [= _ <-]; reflexivity).
  destruct (heap st !! a) as [[d|xs|c attrs|c d]|]; intros [= _ <-];
    reflexivity.
Qed.

Lemma dunder_name_pure obj st r st' : dunder_name obj st = (r, st') -> st' = st.
Proof.
  unfold dunder_name. destruct obj; unfold_m;
    try (intros [= _ <-]; reflexivity).
  apply getattr_pure.
Qed.

Lemma repr_pure self st r st' : __repr__ self st = (r, st') -> st' = st.
Proof.
  unfold __repr__. unfold bind at 1.
  destruct (class_of self st) as [[c|e] s] eqn:E;
    apply class_of_pure in E; subst s; [|intros [= _ <-]; reflexivity].
  unfold bind at 1.
  destruct (getattr self "likelihood" st) as [[lik|e] s] eqn:E;
    apply getattr_pure in E; subst s; [|intros [= _ <-]; reflexivity].
  unfold bind at 1.
  destruct (dunder_name lik st) as [[n|e] s] eqn:E;
    apply dunder_name_pure in E; subst s; [|intros [= _ <-]; reflexivity].
  unfold bind at 1.
  destruct (getattr self "parent" st) as [[p|e] s] eqn:E;
    apply getattr_pure in E; subst s; [|intros [= _ <-]; reflexivity].
  unfold bind at 1.
  destruct (getattr self "priors" st) as [[pr|e] s] eqn:E;
    apply getattr_pure in E; subst s; [|intros [= _ <-]; reflexivity].
  unfold bind at 1.
  destruct (getattr self "link" st) as [[l|e] s] eqn:E;
    apply getattr_pure in E; subst s; [|intros [= _ <-]; reflexivity].
  unfold bind, format_value, ret. intros [= _ <-]. reflexivity.
Qed.

(** X13. An instance of the base class cannot be described unless it was
    given a likelihood: for [Family(...)] without the keywords
    ["likelihood"] and ["priors"], and with no keyword that Python reserves
    or that hides a method, [__repr__] raises [AttributeError].  The same
    holds for any instance with a dictionary of its own whose likelihood is
    [None], a number, a string or an [Identity] instance, which have no
    [__name__]. *)
Theorem repr_needs_a_named_likelihood :
  (forall kwargs st,
     "priors" ∉ dict_keys kwargs ->
     "likelihood" ∉ dict_keys kwargs ->
     plain_keywords kwargs = true ->
     keeps_methods kwargs = true ->
     exists inst st1,
       construct Family kwargs st = (Ok inst, st1) /\
       __repr__ inst st1 = (Raise AttributeError, st1)) /\
  (forall a c attrs lik st,
     heap st !! a = Some (OInst c attrs) ->
     getattr (VRef a) "likelihood" st = (Ok lik, st) ->
     lik = VNone \/ (exists n, lik = VNum n) \/ (exists s, lik = VStr s) \/
     lik = VIdentity ->
     __repr__ (VRef a) st = (Raise AttributeError, st)).
Proof.
  split.
  - intros kwargs st Hpri Hlik Hplain _. eexists _, _.
    split; [now apply construct_plain|].
    set (st1 := mkState _ _).
    assert (Ha : heap st1 !! length (heap st)
                 = Some (OInst Family (dict_update [] kwargs)))
      by apply lookup_snoc_new.
    unfold __repr__. unfold bind at 1. rewrite (class_of_inst _ _ _ _ Ha).
    unfold bind at 1. rewrite (getattr_inst _ _ _ _ _ Ha).
    now rewrite dict_get_update_other by exact Hlik.
  - intros a c attrs lik st Ha Hg Hkind.
    unfold __repr__. unfold bind at 1. rewrite (class_of_inst _ _ _ _ Ha).
    unfold bind at 1. rewrite Hg. unfold bind at 1.
    destruct Hkind as [-> | [[n ->] | [[s ->] | ->]]]; reflexivity.
Qed.

(** X14. [__repr__] never changes the state and asks nothing of the model
    context.  On a default instance of each of the five families it
    returns, in any state, the summary with the name of the likelihood and
    of the parent, also for the four families on which [_get_priors]
    raises. *)
Theorem repr_describes_the_five_families :
  (forall self st, snd (__repr__ self st) = st) /\
  (forall c st,
     c ∈ [StudentT; Normal; Binomial; Poisson; NegativeBinomial] ->
     exists st1 n p priors link,
       construct c [] st = (Ok (VRef (length (heap st))), st1) /\
       class_lookup c "likelihood" = Some (VDistClass n) /\
       class_lookup c "parent" = Some (VStr p) /\
       class_lookup c "priors" = Some priors /\
       class_lookup c "link" = Some link /\
       __repr__ (VRef (length (heap st))) st1 =
       (Ok ("Family " +:+ format_class c +:+ ":" +:+ newline +:+
            "    Likelihood  : " +:+ n +:+ "(" +:+ p +:+ ")" +:+ newline +:+
            "    Priors      : " +:+ format_object (heap st1) priors +:+
            newline +:+
            "    Link function: " +:+ format_object (heap st1) link +:+ "."),
        st1)).
Proof.
  split.
  - intros self st. destruct (__repr__ self st) as [r st'] eqn:E.
    now apply repr_pure in E.
  - intros c st Hc.
    set (st1 := mkState (heap st ++ [OInst c []]) (host st)).
    assert (Ha : heap st1 !! length (heap st) = Some (OInst c []))
      by apply lookup_snoc_new.
    assert (Hrun : construct c [] st = (Ok (VRef (length (heap st))), st1))
      by (apply construct_plain; [apply not_elem_of_nil|reflexivity]).
    assert (Hrepr : forall n p priors link,
              class_lookup c "likelihood" = Some (VDistClass n) ->
              class_lookup c "parent" = Some (VStr p) ->
              class_lookup c "priors" = Some priors ->
              (forall s, priors <> VStr s) ->
              class_lookup c "link" = Some link ->
              (forall s, link <> VStr s) ->
              __repr__ (VRef (length (heap st))) st1 =
              (Ok ("Family " +:+ format_class c +:+ ":" +:+ newline +:+
                   "    Likelihood  : " +:+ n +:+ "(" +:+ p +:+ ")" +:+ newline +:+
                   "    Priors      : " +:+ format_object (heap st1) priors +:+
                   newline +:+
                   "    Link function: " +:+ format_object (heap st1) link +:+ "."),
               st1)).
    { intros n p priors link Hn Hp Hpri Hpri' Hlink Hlink'.
      unfold __repr__. unfold bind at 1. rewrite (class_of_inst _ _ _ _ Ha).
      unfold bind at 1. rewrite (getattr_inst _ _ _ _ _ Ha). simpl dict_get.
      rewrite Hn. unfold bind at 1. unfold dunder_name, ret.
      unfold bind at 1. rewrite (getattr_inst _ _ _ _ _ Ha). simpl dict_get.
      rewrite Hp.
      unfold bind at 1. rewrite (getattr_inst _ _ _ _ _ Ha). simpl dict_get.
      rewrite Hpri.
      unfold bind at 1. rewrite (getattr_inst _ _ _ _ _ Ha). simpl dict_get.
      rewrite Hlink.
      unfold bind, format_value, ret.
      destruct priors; try (now destruct (Hpri' s));
        destruct link; try (now destruct (Hlink' s)); reflexivity. }
    exists st1.
    repeat (apply elem_of_cons in Hc; destruct Hc as [->|Hc];
            [eexists _, _, _, _; split; [exact Hrun|];
             do 4 (split; [reflexivity|]);
             apply Hrepr; try reflexivity; discriminate|]).
    now apply elem_of_nil in Hc.
Qed.

End DescribeProperties.

(** * The scenarios, on the reference host *)

#[local] Existing Instance ref_host.

Lemma custom_keys_NoDup :
  NoDup (dict_keys [("n", VNum 1); ("sd", VDist "HalfCauchy"); ("p", VNum 7)]).
Proof. apply (bool_decide_unpack _). vm_compute. exact I. Defined.

(** [Binomial(priors={"sd": ..., "p": 7})] in a model: the stored priors
    hold ["p": 7], the likelihood receives ["p": sigmoid(eta)]. *)
Lemma create_likelihood_overwrites_parent_witness :
  heap custom_binomial !! 8 =
    Some (ODict [("n", VNum 1); ("sd", VDist "HalfCauchy"); ("p", VNum 7)]) /\
  exists d',
    let kw := dict_set d' "p" (VApply Sigmoid (VVar "eta")) in
    dict_get kw "p" = Some (VApply Sigmoid (VVar "eta")) /\
    create_likelihood (VRef 7) "g" (VVar "eta") (VVar "obs") VNone custom_binomial =
    if dict_mem kw "observed"
    then (Raise TypeError,
          mkState (heap custom_binomial ++ [ODict kw]) (host custom_resolved))
    else call_kw (VDistClass "Binomial") [VStr "g_y"]
           (("observed", VVar "obs") :: kw)
           (mkState (heap custom_binomial ++ [ODict kw]) (host custom_resolved)).
Proof.
  split; [reflexivity|].
  destruct (create_likelihood_overwrites_parent
              (VRef 7) "g" (VVar "eta") (VVar "obs") VNone custom_binomial 8
              [("n", VNum 1); ("sd", VDist "HalfCauchy"); ("p", VNum 7)]
              (VRef 9) custom_resolved logit (VApply Sigmoid (VVar "eta"))
              custom_resolved "p" (VDistClass "Binomial")
              eq_refl eq_refl custom_keys_NoDup eq_refl eq_refl eq_refl
              eq_refl eq_refl)
    as (m & d' & _ & _ & Hget & _ & Hrun).
  exists d'. split; [exact Hget | exact Hrun].
Defined.

(** The same instance: ["n"] is kept, ["sd"] is registered as ["g_sd"]. *)
Lemma get_priors_keys_and_entries_witness :
  exists d',
    heap custom_resolved !! 9 = Some (ODict d') /\
    dict_keys d' = ["n"; "sd"; "p"] /\
    dict_get d' "n" = Some (VNum 1).
Proof.
  pose proof (get_priors_keys_and_entries (VRef 7) VNone "g" custom_binomial 8
                [("n", VNum 1); ("sd", VDist "HalfCauchy"); ("p", VNum 7)]
                eq_refl eq_refl custom_keys_NoDup) as Hthm.
  change (_get_priors (VRef 7) VNone "g" custom_binomial)
    with (@Ok value (VRef 9), custom_resolved) in Hthm.
  destruct Hthm as (m & d' & _ & _ & Hheap & Hkeys & _ & Hent & _).
  exists d'. split; [|split].
  - rewrite Hheap. apply (list_lookup_middle _ []). reflexivity.
  - exact Hkeys.
  - exact (Hent "n" (VNum 1) eq_refl).
Defined.

(** [Weighted(priors={"extra": 5})]: the instance's dictionary is new and
    holds both entries, its ["w"] being the array of the class default. *)
Lemma construct_merges_into_shallow_copy_witness :
  exists inst st' ai di,
    construct Weighted [("priors", VRef 5)] in_model = (Ok inst, st') /\
    heap st' !! ai = Some (ODict di) /\
    dict_get di "w" = Some (VRef 3) /\
    dict_get di "extra" = Some (VNum 5) /\
    heap st' !! 4 = Some (ODict [("w", VRef 3)]).
Proof.
  destruct (construct_merges_into_shallow_copy Weighted 4 [("w", VRef 3)] 5
              [("extra", VNum 5)] in_model eq_refl eq_refl eq_refl)
    as (inst & st' & ai & di & Hrun & _ & _ & Hdi & Hget & Hdef & _).
  { apply (bool_decide_unpack _). vm_compute. exact I. }
  exists inst, st', ai, di. split; [exact Hrun|]. split; [exact Hdi|].
  split; [exact (Hget "w")|]. split; [exact (Hget "extra") | exact Hdef].
Defined.

(** What [Weighted(priors={"extra": 5})] leaves in the store: the class
    default at 4 and the instance's priors at 8 both refer to the array
    at 3. *)
Example weighted_shares_the_array :
  let st' := snd (construct Weighted [("priors", VRef 5)] in_model) in
  construct Weighted [("priors", VRef 5)] in_model = (Ok (VRef 7), st') /\
  getattr (VRef 7) "priors" st' = (Ok (VRef 8), st') /\
  heap st' !! 8 = Some (ODict [("w", VRef 3); ("extra", VNum 5)]) /\
  heap st' !! 4 = Some (ODict [("w", VRef 3)]) /\
  heap st' !! 3 = Some (OArray [1%Z; 2%Z]).
Proof. repeat split. Qed.

(** C3, as stated, fails for [Weighted(priors={"extra": 5})]: the array
    of the class default is reachable from the instance's priors as well,
    so the instance does not hold a deep copy. *)
Lemma construct_copy_is_not_deep :
  ~ holds_deep_copy Weighted [("priors", VRef 5)] in_model.
Proof.
  intros Hdeep.
  apply (Hdeep (VRef 7)
           (snd (construct Weighted [("priors", VRef 5)] in_model))
           4 [("w", VRef 3)] 8 [("w", VRef 3); ("extra", VNum 5)]);
    try reflexivity.
  exists "w", "w", 3. repeat split; try reflexivity.
  now exists (OArray [1%Z; 2%Z]).
Qed.


(** The other reserved keywords: [self] collides with the first parameter
    of [__init__], [__weakref__] cannot be set, and with
    [Binomial(__dict__=Binomial.priors, link=identity)] the class default
    becomes the instance dictionary, in which the link is then stored. *)
Example reserved_keywords_are_special :
  fst (construct Family [("self", VNum 5)] in_model) = Raise TypeError /\
  fst (construct Family [("__weakref__", VNone)] in_model) =
    Raise AttributeError /\
  heap (snd (construct Binomial [("__dict__", VRef 1); ("link", identity)]
               in_model)) !! 1 =
    Some (ODict [("n", VNum 1); ("link", identity)]).
Proof. repeat split. Qed.

(** [Normal()] in a model. *)
Lemma families_without_priors_fail_witness :
  exists e st2,
    _get_priors (VRef 7) VNone "" (snd (construct Normal [] in_model)) =
      (Raise e, st2) /\
    host st2 = host in_model /\ e = AttributeError.
Proof.
  destruct (proj1 families_without_priors_fail Normal) with
    (st := in_model) (model := VNone) (name := "") (y_est := VNone)
    (y_data := VNone) (val := VNone)
    as (st1 & Hc & _ & (e & st2 & Hp & Hh & He) & _).
  { apply elem_of_cons. right. apply elem_of_cons. now left. }
  exists e, st2. inversion Hc; subst st1.
  split; [exact Hp|]. split; [exact Hh|]. exact (He (VModel "model") eq_refl).
Defined.

(** [Binomial(priors={"n": 5})] in a model. *)
Lemma binomial_scenario_witness :
  exists st1 st3,
    construct Binomial [("priors", VRef 2)] in_model = (Ok (VRef 7), st1) /\
    create_likelihood (VRef 7) "" (VVar "eta") (VVar "obs") VNone st1 =
    host_step (dist_new "Binomial" [VStr "y"]
                 [("observed", VVar "obs"); ("n", VNum 5);
                  ("p", VApply Sigmoid (VVar "eta"))]) st3.
Proof.
  destruct (binomial_scenario in_model 2 VNone (VModel "model") ""
              (VVar "eta") (VVar "obs") (VApply Sigmoid (VVar "eta")))
    as (_ & st1 & Hc & _ & _ & st3 & Hl & _); try reflexivity.
  { intros a o Ha. now apply lookup_app_l_Some. }
  exists st1, st3. split; [exact Hc | exact Hl].
Defined.



(** [Binomial()] outside of any model: its only prior is the constant
    [1], and still nothing goes through. *)
Lemma no_model_context_fails_witness :
  heap plain_binomial !! 1 = Some (ODict [("n", VNum 1)]) /\
  _get_priors (VRef 7) VNone "" plain_binomial = (Raise TypeError, plain_binomial) /\
  create_likelihood (VRef 7) "" (VVar "eta") (VVar "obs") VNone plain_binomial =
    (Raise TypeError, plain_binomial).
Proof.
  split; [reflexivity|].
  apply (no_model_context_fails (VRef 7) VNone "" (VVar "eta") (VVar "obs")
           plain_binomial TypeError).
  reflexivity.
Defined.

(** The reciprocal at 2. *)
Lemma link_function_identities_witness :
  exists f, link_den inverse = Some f /\ f 2%R = (1 / 2)%R.
Proof.
  destruct link_function_identities as (_ & _ & (f & Hf & Hinv) & _).
  exists f. split; [exact Hf|]. apply Hinv. apply not_eq_sym, Rlt_not_eq, Rlt_0_2.
Defined.

(** The custom [Binomial] after [create_likelihood]. *)
Lemma create_likelihood_keeps_stored_priors_witness :
  let st' := snd (create_likelihood (VRef 7) "g" (VVar "eta") (VVar "obs") VNone
                    custom_binomial) in
  getattr (VRef 7) "priors" st' = (Ok (VRef 8), st') /\
  heap st' !! 8 =
    Some (ODict [("n", VNum 1); ("sd", VDist "HalfCauchy"); ("p", VNum 7)]) /\
  preserves (heap custom_binomial) (heap st').
Proof.
  exact (create_likelihood_keeps_stored_priors
           (VRef 7) "g" (VVar "eta") (VVar "obs") VNone custom_binomial 8
           [("n", VNum 1); ("sd", VDist "HalfCauchy"); ("p", VNum 7)]
           eq_refl eq_refl).
Defined.

(** * The further scenarios *)

#[local] Existing Instance plain_runtime.

Ltac decide_by_computation := apply (bool_decide_unpack _); vm_compute; exact I.

(** [Binomial(priors={"n": 5}, link=identity)]. *)
Lemma construct_leaves_the_rest_witness :
  let st' := snd (construct Binomial [("priors", VRef 2); ("link", identity)]
                    in_model) in
  host st' = host in_model /\ heap st' !! 1 = Some (ODict [("n", VNum 1)]).
Proof.
  destruct (construct_leaves_the_rest Binomial
              [("priors", VRef 2); ("link", identity)] in_model eq_refl)
    as [Hh Hp].
  split; [exact Hh | apply Hp; reflexivity].
Defined.

(** Two default [Binomial] instances. *)
Lemma plain_instances_share_the_class_priors_witness :
  exists st2,
    getattr (VRef 7) "priors" st2 = (Ok (VRef 1), st2) /\
    getattr (VRef 8) "priors" st2 = (Ok (VRef 1), st2) /\
    heap (snd (setitem (VRef 1) "n" (VNum 9) st2)) !! 1 =
      Some (ODict [("n", VNum 9)]).
Proof.
  destruct (plain_instances_share_the_class_priors Binomial [] [] 1
              [("n", VNum 1)] in_model)
    as (st1 & st2 & _ & _ & _ & Hg1 & Hg2 & Hset);
    try reflexivity; try apply not_elem_of_nil.
  exists st2. split; [exact Hg1|]. split; [exact Hg2|].
  exact (proj2 (proj2 (Hset "n" (VNum 9)))).
Defined.

(** [Binomial(priors=5)]. *)
Lemma construct_rejects_priors_that_are_no_mapping_witness :
  fst (construct Binomial [("priors", VNum 5)] in_model) = Raise TypeError /\
  heap (snd (construct Binomial [("priors", VNum 5)] in_model)) !! 1 =
    Some (ODict [("n", VNum 1)]).
Proof.
  destruct (construct_rejects_priors_that_are_no_mapping Binomial [] [] 1
              [("n", VNum 1)] (VNum 5) in_model)
    as (Hty & _ & _ & Hdef); try reflexivity; try apply not_elem_of_nil.
  split; [|exact Hdef]. apply Hty. right. left. now exists 5%Z.
Defined.

(** [Binomial(priors={"sd": ..., "p": 7})]: ["n"] first. *)
Lemma merged_priors_keep_the_default_order_witness :
  exists st' di,
    construct Binomial [("priors", VRef 6)] in_model = (Ok (VRef 7), st') /\
    (p <- getattr (VRef 7) "priors" ;; items p) st' = (Ok di, st') /\
    dict_keys di = ["n"; "sd"; "p"].
Proof.
  destruct (merged_priors_keep_the_default_order Binomial 1 [("n", VNum 1)] 6
              [("sd", VDist "HalfCauchy"); ("p", VNum 7)] in_model)
    as (st' & di & Hrun & Hit & Hkeys & _);
    try reflexivity; try decide_by_computation.
  exists st', di. split; [exact Hrun|]. split; [exact Hit | exact Hkeys].
Defined.

(** [Normal(link=logit)]. *)
Lemma families_without_priors_are_unusable_witness :
  match construct Normal [("link", logit)] in_model with
  | (Raise e, st1) => False
  | (Ok inst, st1) =>
      exists e st2,
        create_likelihood inst "" (VVar "eta") (VVar "obs") VNone st1 =
        (Raise e, st2) /\ host st2 = host in_model
  end.
Proof.
  pose proof (families_without_priors_are_unusable Normal [("link", logit)]
                in_model) as Hthm.
  destruct (construct Normal [("link", logit)] in_model) as [[inst|e] st1] eqn:E.
  - destruct Hthm as (_ & _ & Hfail).
    + apply elem_of_cons. right. apply elem_of_cons. now left.
    + reflexivity.
    + reflexivity.
    + exact (proj2 (Hfail "" (VVar "eta") (VVar "obs") VNone)).
  - discriminate E.
Defined.

(** The custom [Binomial] given a string for a model: registering ["sd"]
    raises, after ["n"] went through. *)
Lemma failed_registration_keeps_the_earlier_ones_witness :
  exists st',
    create_likelihood (VRef 7) "g" (VVar "eta") (VVar "obs") (VStr "model")
      custom_binomial = (Raise AttributeError, st') /\
    heap st' !! 9 = Some (ODict [("n", VNum 1)]).
Proof.
  destruct (failed_registration_keeps_the_earlier_ones
              (VRef 7) (VStr "model") "g" (VVar "eta") (VVar "obs")
              custom_binomial 8 [("n", VNum 1)] "sd" (VDist "HalfCauchy")
              [("p", VNum 7)] (VStr "model") [("n", VNum 1)]
              (host custom_binomial) AttributeError (host custom_binomial)
              eq_refl eq_refl eq_refl)
    as [_ Hrun]; try reflexivity.
  { apply resolved_const; [reflexivity | constructor]. }
  eexists. split; [exact Hrun | reflexivity].
Defined.

(** [Family()]: its link is [None]. *)
Lemma create_likelihood_fails_after_registering_witness :
  create_likelihood (VRef 7) "" (VVar "eta") (VVar "obs") VNone plain_family =
  (Raise TypeError, snd (_get_priors (VRef 7) VNone "" plain_family)).
Proof.
  exact (proj1 (create_likelihood_fails_after_registering 7 Family []
                  "" (VVar "eta") (VVar "obs") VNone plain_family (VRef 8)
                  (snd (_get_priors (VRef 7) VNone "" plain_family))
                  eq_refl eq_refl) eq_refl).
Defined.

(** [Binomial(parent="observed")]. *)
Lemma observed_cannot_be_a_parameter_witness :
  exists st3,
    create_likelihood (VRef 7) "" (VVar "eta") (VVar "obs") VNone
      observed_binomial = (Raise TypeError, st3) /\
    registered (host st3) = [].
Proof.
  destruct (observed_cannot_be_a_parameter
              (VRef 7) "" (VVar "eta") (VVar "obs") VNone observed_binomial 1
              [("n", VNum 1)] (VRef 8)
              (snd (_get_priors (VRef 7) VNone "" observed_binomial))
              logit (VApply Sigmoid (VVar "eta"))
              (snd (_get_priors (VRef 7) VNone "" observed_binomial))
              "observed" (VDistClass "Binomial")
              eq_refl eq_refl)
    as (st3 & Hrun & Hhost);
    try reflexivity; try decide_by_computation; try (now right).
  exists st3. split; [exact Hrun|]. now rewrite Hhost.
Defined.

(** [Binomial(parent=None)]. *)
Lemma parent_must_be_a_string_witness :
  create_likelihood (VRef 7) "" (VVar "eta") (VVar "obs") VNone
    headless_binomial =
  (Raise TypeError, snd (_get_priors (VRef 7) VNone "" headless_binomial)).
Proof.
  apply (parent_must_be_a_string
           (VRef 7) "" (VVar "eta") (VVar "obs") VNone headless_binomial
           (VRef 8) (snd (_get_priors (VRef 7) VNone "" headless_binomial))
           logit (VApply Sigmoid (VVar "eta"))
           (snd (_get_priors (VRef 7) VNone "" headless_binomial))
           VNone (VDistClass "Binomial")); try reflexivity.
  discriminate.
Defined.


(** The keys ["sd"] and ["nu"] under the prefix ["g"]. *)
Lemma names_tell_keys_apart_witness :
  with_underscore "g" +:+ "sd" <> with_underscore "g" +:+ "nu".
Proof.
  intros Heq. apply (proj1 names_tell_keys_apart "g" "sd" "nu") in Heq.
  discriminate Heq.
Defined.

(** A default [Binomial] with the active model and with a model given
    explicitly. *)
Lemma model_is_used_for_the_priors_only_witness :
  create_likelihood (VRef 7) "" (VVar "eta") (VVar "obs") VNone
    (snd (construct Binomial [] in_model)) =
  create_likelihood (VRef 7) "" (VVar "eta") (VVar "obs") (VModel "other")
    (snd (construct Binomial [] in_model)).
Proof.
  apply (model_is_used_for_the_priors_only
           (VRef 7) "" (VVar "eta") (VVar "obs") VNone (VModel "other")
           (VModel "model") (VModel "other")
           (snd (construct Binomial [] in_model)) 1 [("n", VNum 1)]);
    try reflexivity.
  intros k v Hin. apply list_elem_of_singleton in Hin. now inversion Hin.
Defined.

(** [Family()] and [Family(parent="mu")]. *)
Lemma repr_needs_a_named_likelihood_witness :
  exists inst st1,
    construct Family [("parent", VStr "mu")] in_model = (Ok inst, st1) /\
    __repr__ inst st1 = (Raise AttributeError, st1).
Proof.
  apply (proj1 repr_needs_a_named_likelihood [("parent", VStr "mu")] in_model);
    decide_by_computation.
Defined.

(** [Normal()] outside of any model. *)
Lemma repr_describes_the_five_families_witness :
  exists st1 text,
    construct Normal [] no_model = (Ok (VRef 7), st1) /\
    __repr__ (VRef 7) st1 = (Ok text, st1).
Proof.
  destruct (proj2 repr_describes_the_five_families Normal no_model)
    as (st1 & n & p & priors & link & Hrun & _ & _ & _ & _ & Hrepr).
  { apply elem_of_cons. right. apply elem_of_cons. now left. }
  exists st1. eexists. split; [exact Hrun | exact Hrepr].
Defined.

(** A default [Binomial] in a model. *)
Lemma create_likelihood_with_constant_priors_witness :
  create_likelihood (VRef 7) "" (VVar "eta") (VVar "obs") VNone
    (snd (construct Binomial [] in_model)) =
  call_kw (VDistClass "Binomial") [VStr "y"]
    [("observed", VVar "obs"); ("n", VNum 1);
     ("p", VApply Sigmoid (VVar "eta"))]
    (mkState (heap (snd (construct Binomial [] in_model)) ++
                [ODict [("n", VNum 1); ("p", VApply Sigmoid (VVar "eta"))]])
       (host in_model)).
Proof.
  apply (create_likelihood_with_constant_priors
           (VRef 7) "" (VVar "eta") (VVar "obs") VNone (VModel "model")
           (snd (construct Binomial [] in_model)) 1 [("n", VNum 1)]
           logit (VApply Sigmoid (VVar "eta"))
           (mkState (heap (snd (construct Binomial [] in_model)) ++
                       [ODict [("n", VNum 1)]]) (host in_model))
           "p" (VDistClass "Binomial"));
    try reflexivity; try decide_by_computation; try discriminate.
  intros k v Hin. apply list_elem_of_singleton in Hin. now inversion Hin.
Defined.

(** [Binomial(link=identity, parent="q", likelihood=Poisson)]. *)
Lemma overrides_reach_create_likelihood_witness :
  exists st1 st3,
    construct Binomial
      [("link", identity); ("parent", VStr "q");
       ("likelihood", VDistClass "Poisson")] in_model = (Ok (VRef 7), st1) /\
    create_likelihood (VRef 7) "" (VVar "eta") (VVar "obs") VNone st1 =
    call_kw (VDistClass "Poisson") [VStr "y"]
      [("observed", VVar "obs"); ("n", VNum 1); ("q", VVar "eta")] st3.
Proof.
  destruct (overrides_reach_create_likelihood Binomial
              [("link", identity); ("parent", VStr "q");
               ("likelihood", VDistClass "Poisson")]
              identity "q" (VDistClass "Poisson") 1 [("n", VNum 1)]
              "" (VVar "eta") (VVar "obs") VNone (VModel "model") in_model
              (VVar "eta")
              (mkState (heap in_model ++
                          [OInst Binomial
                             (dict_update []
                                [("link", identity); ("parent", VStr "q");
                                 ("likelihood", VDistClass "Poisson")]);
                           ODict [("n", VNum 1)]]) (host in_model)))
    as (st1 & Hrun & Hcl);
    try reflexivity; try decide_by_computation; try discriminate;
    try (apply list_elem_of_In; simpl; tauto).
  { intros k v Hin. apply list_elem_of_singleton in Hin. now inversion Hin. }
  exists st1. eexists. split; [exact Hrun | exact Hcl].
Defined.
